(** * TritonHTTP: request parser, response builder and connection handler

    A shallow embedding of package [tritonhttp].  The repository holds two
    copies of the parser and of the server:

    - [pkg/tritonhttp/request.go] and the server that sits next to
      [pkg/tritonhttp/response.go] and [request_test.go]; modules [Pkg]
      and [PkgServer];
    - a second [request.go] and a second [server.go]; modules [Rev] and
      [RevServer].

    Both are embedded, function by function, over the same model of Go
    strings, maps, the buffered reader and the operating-system calls. *)

From Stdlib Require Import ZArith Ascii String DecimalString.
From stdpp Require Import gmap strings list fin_maps sorting.

Local Open Scope string_scope.

(** ** Go strings: the functions of package [strings] the code calls *)

Module Strings.

(** [strings.HasPrefix s prefix]. *)
Fixpoint HasPrefix (s prefix : string) : bool :=
  match prefix, s with
  | EmptyString, _ => true
  | String _ _, EmptyString => false
  | String p prefix', String c s' =>
      if Ascii.eqb c p then HasPrefix s' prefix' else false
  end.

(** [strings.HasSuffix s suffix]. *)
Definition HasSuffix (s suffix : string) : bool :=
  HasPrefix (String.rev s) (String.rev suffix).

(** [s[n:]]: drop the first [n] bytes. *)
Fixpoint skip (n : nat) (s : string) : string :=
  match n, s with
  | O, _ => s
  | S _, EmptyString => EmptyString
  | S n', String _ s' => skip n' s'
  end.

(** [strings.Cut s sep] for a non-empty [sep]: the text before and after
    the first instance of [sep]. *)
Fixpoint Cut (s sep : string) : option (string * string) :=
  if HasPrefix s sep then Some (EmptyString, skip (String.length sep) s)
  else match s with
       | EmptyString => None
       | String c s' =>
           match Cut s' sep with
           | Some (before, after) => Some (String c before, after)
           | None => None
           end
       end.

(** [strings.Contains s substr]. *)
Definition Contains (s substr : string) : bool :=
  match Cut s substr with Some _ => true | None => false end.

(** [strings.SplitN s sep n] for [n >= 0] and a non-empty [sep]: at most
    [n] substrings, the last one being the unsplit remainder; [n = 0]
    gives the nil slice. *)
Fixpoint SplitN (s sep : string) (n : nat) : list string :=
  match n with
  | O => []
  | S O => [s]
  | S n' =>
      match Cut s sep with
      | Some (before, after) => before :: SplitN after sep n'
      | None => [s]
      end
  end.

(** [strings.TrimLeft s " "]: the cutset holds the space only. *)
Fixpoint TrimLeft_space (s : string) : string :=
  match s with
  | String c s' => if Ascii.eqb c " " then TrimLeft_space s' else s
  | EmptyString => EmptyString
  end.

Definition byte (n : nat) : ascii := ascii_of_nat n.
Definition bytes (l : list nat) : string :=
  fold_right (fun n s => String (byte n) s) EmptyString l.

(** The UTF-8 encodings of the runes for which [unicode.IsSpace] holds:
    tab, LF, VT, FF, CR, space, U+0085, U+00A0, U+1680, U+2000..U+200A,
    U+2028, U+2029, U+202F, U+205F, U+3000. *)
Definition space_runes : list string :=
  map bytes
    ([[9]; [10]; [11]; [12]; [13]; [32]; [194; 133]; [194; 160];
      [225; 154; 128]]
     ++ map (fun k => [226; 128; 128 + k]) (seq 0 11)
     ++ [[226; 128; 168]; [226; 128; 169]; [226; 128; 175];
         [226; 129; 159]; [227; 128; 128]]).

(** Strip one leading white-space rune, if there is one. *)
Definition strip_space_rune (s : string) : option string :=
  match filter (fun r => Is_true (HasPrefix s r)) space_runes with
  | r :: _ => Some (skip (String.length r) s)
  | [] => None
  end.

(** [strings.TrimLeftFunc s unicode.IsSpace].  [fuel] bounds the number
    of runes; [String.length s] is always enough. *)
Fixpoint TrimLeftSpace_fuel (fuel : nat) (s : string) : string :=
  match fuel with
  | O => s
  | S fuel' =>
      match strip_space_rune s with
      | Some s' => TrimLeftSpace_fuel fuel' s'
      | None => s
      end
  end.

(** [len(strings.TrimSpace(s)) == 0]: trimming white space on both sides
    leaves nothing exactly when trimming on the left does. *)
Definition TrimSpace_empty (s : string) : bool :=
  match TrimLeftSpace_fuel (String.length s) s with
  | EmptyString => true
  | String _ _ => false
  end.

(** [strings.Join elems sep]. *)
Fixpoint Join (elems : list string) (sep : string) : string :=
  match elems with
  | [] => EmptyString
  | [e] => e
  | e :: rest => e +:+ sep +:+ Join rest sep
  end.

(** All parts of [s] between instances of the byte [sep]
    ([strings.Split] with a one-byte separator). *)
Fixpoint Split_byte (s : string) (sep : ascii) : list string :=
  match s with
  | EmptyString => [EmptyString]
  | String c s' =>
      if Ascii.eqb c sep then EmptyString :: Split_byte s' sep
      else match Split_byte s' sep with
           | part :: parts => String c part :: parts
           | [] => [String c EmptyString]
           end
  end.

Definition CR : ascii := byte 13.
Definition LF : ascii := byte 10.
Definition CRLF : string := String CR (String LF EmptyString).

End Strings.

Import Strings.

(** ** [path/filepath]: [Clean] and [Join] on slash-separated paths *)

Module Filepath.

(** One step of [Clean]: [stack] holds the components kept so far, the
    last one first.  Empty components and [.] are dropped, [..] removes
    the component before it; at the start of a rooted path it is dropped,
    at the start of a relative one it is kept. *)
Definition Clean_step (rooted : bool) (stack : list string) (comp : string)
  : list string :=
  if decide (comp = "" ∨ comp = ".") then stack
  else if decide (comp = "..") then
    match stack with
    | top :: below =>
        if decide (top = "..") then comp :: stack else below
    | [] => if rooted then [] else [comp]
    end
  else comp :: stack.

(** [filepath.Clean path]. *)
Definition Clean (path : string) : string :=
  if decide (path = "") then "."
  else
    let rooted := HasPrefix path "/" in
    let kept := foldl (Clean_step rooted) [] (Split_byte path "/") in
    let out := Strings.Join (reverse kept) "/" in
    if rooted then "/" +:+ out
    else if decide (out = "") then "." else out.

(** [filepath.Join elem...]: empty leading elements are ignored, the rest
    is joined with slashes and cleaned; no non-empty element gives [""]. *)
Fixpoint Join (elem : list string) : string :=
  match elem with
  | [] => ""
  | e :: rest =>
      if decide (e = "") then Join rest
      else Clean (Strings.Join elem "/")
  end.

End Filepath.

(** ** Errors, the buffered reader and [ReadLine] *)

(** The errors a read on the connection fails with: [io.EOF], a
    [net.Error] whose [Timeout()] holds, any other transport error. *)
Inductive read_error : Type :=
| io_EOF
| net_Timeout
| net_Failure.

(** The errors [ReadRequest] returns: the error of a failed read, and one
    constructor per [fmt.Errorf] of the parsers. *)
Inductive error : Type :=
| Read (err : read_error)
| ErrRequestLine
| ErrMethod
| ErrEmptyField
| ErrFieldSpace
| ErrURL
| ErrProto
| ErrHeaderFormat
| ErrHeaderSpace
| ErrHeaderEmpty
| ErrHeaderChar
| ErrMissingHost.

Global Instance read_error_eq_dec : EqDecision read_error.
Proof. solve_decision. Defined.

Global Instance error_eq_dec : EqDecision error.
Proof. solve_decision. Defined.

(** [errors.Is(err, io.EOF)]. *)
Definition is_EOF (err : option error) : bool :=
  match err with Some (Read io_EOF) => true | _ => false end.

(** [err.(net.Error)] succeeds and [err.Timeout()] holds. *)
Definition is_Timeout (err : option error) : bool :=
  match err with Some (Read net_Timeout) => true | _ => false end.

(** What is left to read on a connection, as [ReadLine] sees it: a complete
    line (its CRLF stripped) followed by the rest, or the bytes of an
    unfinished line followed by the error of the read that did not return
    a line end. *)
Inductive Reader : Type :=
| Line (line : string) (next : Reader)
| Fail (partial : string) (err : read_error).

(** Modelled from the spec: [ReadLine] of [util.go], which is not among the
    sources.  A line ends in CRLF; the line is returned without it.  When
    the stream ends or the deadline passes first, the bytes read so far
    come back together with the error. *)
Definition ReadLine (br : Reader) : string * option error * Reader :=
  match br with
  | Line line next => (line, None, next)
  | Fail partial err => (partial, Some (Read err), Fail "" err)
  end.

(** The reader over the bytes [s] that a client sent before the read
    failed with [err].  [cur] is the line being read, last byte first: a LF
    that follows a CR ends it. *)
Fixpoint reader_go (cur : string) (s : string) (err : read_error)
  : Reader :=
  match s with
  | EmptyString => Fail (String.rev cur) err
  | String c s' =>
      match cur with
      | String d cur' =>
          if Ascii.eqb c LF && Ascii.eqb d CR
          then Line (String.rev cur') (reader_go "" s' err)
          else reader_go (String c cur) s' err
      | EmptyString => reader_go (String c cur) s' err
      end
  end.

Definition NewReader (s : string) (err : read_error) : Reader :=
  reader_go "" s err.

(** ** Go maps: a heap of header maps

    A Go map is a reference: [res.Header = req.Header] makes both fields
    name one map.  A header map is a cell of the heap, a map value of type
    [map[string]string] is the index of its cell, and [nil] is [None]. *)

Abbreviation HeaderMap := (gmap string string).
Abbreviation Heap := (list (gmap string string)).
Abbreviation mapref := (option nat).

(** [make(map[string]string)]: the index of the new, empty cell. *)
Definition make (h : Heap) : nat * Heap := (List.length h, (h ++ [∅])%list).

(** The contents of the map [m]; a nil map reads as the empty map. *)
Definition contents (h : Heap) (m : mapref) : HeaderMap :=
  match m with
  | Some l => default ∅ (h !! l)
  | None => ∅
  end.

(** [m[k]]: the zero value [""] for a missing key. *)
Definition index (h : Heap) (m : mapref) (k : string) : string :=
  default "" (contents h m !! k).

(** [delete(m, k)]; a no-op on a nil map. *)
Definition delete_key (h : Heap) (m : mapref) (k : string) : Heap :=
  match m with
  | Some l => alter (delete k) l h
  | None => h
  end.

(** ** The data model *)

Module Request.
Record t : Type := mk {
  Method : string;
  URL : string;
  Proto : string;
  Header : mapref;
  Host : string;
  Close : bool
}.

(** [&Request{}]. *)
Definition zero : t := mk "" "" "" None "" false.

Definition set_Method (v : string) (r : t) : t :=
  mk v (URL r) (Proto r) (Header r) (Host r) (Close r).
Definition set_URL (v : string) (r : t) : t :=
  mk (Method r) v (Proto r) (Header r) (Host r) (Close r).
Definition set_Proto (v : string) (r : t) : t :=
  mk (Method r) (URL r) v (Header r) (Host r) (Close r).
Definition set_Header (v : mapref) (r : t) : t :=
  mk (Method r) (URL r) (Proto r) v (Host r) (Close r).
Definition set_Host (v : string) (r : t) : t :=
  mk (Method r) (URL r) (Proto r) (Header r) v (Close r).
Definition set_Close (v : bool) (r : t) : t :=
  mk (Method r) (URL r) (Proto r) (Header r) (Host r) v.
End Request.

Module Response.
(** [Request] is a pointer in the source; here it is the request as it
    was when the response was built. *)
Record t : Type := mk {
  StatusCode : Z;
  Proto : string;
  Header : mapref;
  Request : option Request.t;
  FilePath : string
}.

(** [&Response{}]. *)
Definition zero : t := mk 0 "" None None "".
End Response.

Definition statusOK : Z := 200.
Definition statusBadRequest : Z := 400.
Definition statusNotFound : Z := 404.

(** [statusText[code]]: the empty string for a code that is not a key. *)
Definition statusText (code : Z) : string :=
  if decide (code = statusOK) then "OK"
  else if decide (code = statusBadRequest) then "Bad Request"
  else if decide (code = statusNotFound) then "Not Found"
  else "".

(** ** The collaborators: file system, clock, time format and MIME table *)

Record FileInfo : Type := {
  IsDir : bool;
  Size : Z;
  ModTime : Z
}.

(** The result of [os.Stat]: the file's info, an error for which
    [os.IsNotExist] holds, or another error (with a nil [FileInfo]). *)
Inductive StatResult : Type :=
| StatInfo (fi : FileInfo)
| StatNotExist
| StatError.

Record World : Type := {
  Now : Z;
  Stat : string → StatResult;
  ReadFile : string → option string;
  FormatTime : Z → string;
  MIMETypeByExtension : string → string
}.

Record Server : Type := {
  Addr : string;
  DocRoot : string
}.

(** A computation that may panic. *)
Inductive outcome (A : Type) : Type :=
| Returns (a : A)
| Panics (why : string).
Arguments Returns {A} a.
Arguments Panics {A} why.

(** [strconv.Itoa]. *)
Definition Itoa (n : Z) : string := NilZero.string_of_int (Z.to_int n).

Definition outcome_bind {A B : Type} (x : outcome A) (f : A → outcome B)
  : outcome B :=
  match x with
  | Returns a => f a
  | Panics why => Panics why
  end.

Notation "x ← y ;;; z" := (outcome_bind y (fun x => z))
  (at level 20, y at level 100, z at level 200, only parsing).
Notation "' x ← y ;;; z" := (outcome_bind y (fun x => z))
  (at level 20, x pattern, y at level 100, z at level 200, only parsing).

(** [m[k] = v] on the map in cell [l]. *)
Definition store (h : Heap) (l : nat) (k v : string) : Heap :=
  alter (insert k v) l h.

(** [m[k] = v] as a step that panics on a nil map. *)
Definition assign_or_panic (h : Heap) (m : mapref) (k v : string)
  : outcome Heap :=
  match m with
  | Some l => Returns (store h l k v)
  | None => Panics "assignment to entry in nil map"
  end.

(** The case of an ASCII letter; other bytes are left alone. *)
Definition to_upper (c : ascii) : ascii :=
  let n := nat_of_ascii c in
  if (97 <=? n)%nat && (n <=? 122)%nat then ascii_of_nat (n - 32) else c.

Definition to_lower (c : ascii) : ascii :=
  let n := nat_of_ascii c in
  if (65 <=? n)%nat && (n <=? 90)%nat then ascii_of_nat (n + 32) else c.

(** [upper] says whether the next byte starts a segment. *)
Fixpoint canonical_go (upper : bool) (s : string) : string :=
  match s with
  | EmptyString => EmptyString
  | String c s' =>
      String (if upper then to_upper c else to_lower c)
             (canonical_go (Ascii.eqb c "-") s')
  end.

(** Modelled from the spec: [CanonicalHeaderKey] of [util.go], which is not
    among the sources.  The name is cut at its hyphens and each segment is
    capitalized: its first letter in upper case, the others in lower
    case. *)
Definition CanonicalHeaderKey (s : string) : string := canonical_go true s.

(** The result triple of [ReadRequest], with the reader and the heap the
    call leaves behind. *)
Abbreviation ReadResult :=
  ((option Request.t * bool * option error) * Reader * Heap)%type.

(** The components of the result triple. *)
Definition parsed (r : ReadResult) : option Request.t := r.1.1.1.1.
Definition bytesReceived (r : ReadResult) : bool := r.1.1.1.2.
Definition failure (r : ReadResult) : option error := r.1.1.2.

(** Whether a read on [br] delivers at least one byte of a request, and
    whether it delivers a whole line. *)
Definition delivers_bytes (br : Reader) : bool :=
  match br with
  | Line _ _ => true
  | Fail partial _ => negb (String.length partial =? 0)%nat
  end.

Definition delivers_line (br : Reader) : bool :=
  match br with
  | Line _ _ => true
  | Fail _ _ => false
  end.

(** ** [pkg/tritonhttp/request.go] *)

Module Pkg.

(** The header loop of [ReadRequest].  [br] is matched where the source
    calls [ReadLine]; the first component is the error the function
    returns from inside the loop, [None] after the [break]. *)
Fixpoint read_headers (br : Reader) (req : Request.t) (header : nat)
    (h : Heap) : option error * Request.t * Reader * Heap :=
  match br with
  | Fail _ err => (Some (Read err), req, Fail "" err, h)
  | Line line br =>
      if decide (line = "") then (None, req, br, h)
      else
        match SplitN line ":" 2 with
        | [h0; h1] =>
            if HasSuffix h0 " " || HasPrefix h0 " "
            then (Some ErrHeaderSpace, req, br, h)
            else if TrimSpace_empty h0
            then (Some ErrHeaderEmpty, req, br, h)
            else
              let req :=
                if decide (h0 = "Host") then Request.set_Host h1 req
                else req in
              let req :=
                if decide (h0 = "Connection" ∧ h1 = "close")
                then Request.set_Close true req else req in
              read_headers br req header (store h header h0 h1)
        | _ => (Some ErrHeaderFormat, req, br, h)
        end
  end.

Definition ReadRequest (h : Heap) (br : Reader) : ReadResult :=
  let bytesReceived := false in
  let bytesRec := false in
  let '(line, err, br) := ReadLine br in
  match err with
  | Some err =>
      ((None, negb (String.length line =? 0)%nat, Some err), br, h)
  | None =>
      let bytesRec := true in
      match SplitN line " " 3 with
      | [f0; f1; f2] =>
          if negb (bool_decide (f0 = "GET"))
          then ((None, bytesRec, Some ErrMethod), br, h)
          else if (String.length f0 =? 0)%nat || (String.length f1 =? 0)%nat
                  || (String.length f2 =? 0)%nat
          then ((None, bytesRec, Some ErrEmptyField), br, h)
          else if Contains f0 " " || Contains f1 " " || Contains f2 " "
          then ((None, bytesRec, Some ErrFieldSpace), br, h)
          else if negb (HasPrefix f1 "/")
          then ((None, bytesRec, Some ErrURL), br, h)
          else if negb (bool_decide (f2 = "HTTP/1.1"))
          then ((None, bytesRec, Some ErrProto), br, h)
          else
            let req := Request.zero in
            let req := Request.set_Method f0 req in
            let req := Request.set_Proto f2 req in
            let req := Request.set_Close false req in
            let url := f1 in
            let url := if HasSuffix url "/" then url +:+ "index.html"
                       else url in
            let req := Request.set_URL url req in
            let '(header, h) := make h in
            match read_headers br req header h with
            | (Some err, _, br, h) => ((None, bytesRec, Some err), br, h)
            | (None, req, br, h) =>
                let h := delete_key h (Some header) "Connection" in
                let req := Request.set_Header (Some header) req in
                ((Some req, bytesReceived, None), br, h)
            end
      | _ => ((None, bytesRec, Some ErrRequestLine), br, h)
      end
  end.

End Pkg.

(** ** The second [request.go] *)

Module Rev.

(** The bytes a header name may hold: digits, letters and the hyphen. *)
Definition name_byte (c : ascii) : bool :=
  let n := nat_of_ascii c in
  negb (((n <? 48) || (57 <? n)) && ((n <? 97) || (122 <? n))
        && ((n <? 65) || (90 <? n)) && negb (n =? 45))%nat.

Fixpoint name_bytes (s : string) : bool :=
  match s with
  | EmptyString => true
  | String c s' => name_byte c && name_bytes s'
  end.

(** The loop state next to the request: [checkConn] and [checkHost]. *)
Record flags : Type := { checkConn : bool; checkHost : bool }.

(** The header loop of [ReadRequest]; the map in cell [header] is
    [req.Header].  The loop over the runes of [h[0]] is taken byte by
    byte: a byte above 127 decodes to a rune above 127 or to the
    replacement rune, which the test refuses as well. *)
Fixpoint read_headers (br : Reader) (req : Request.t) (fl : flags)
    (header : nat) (h : Heap)
    : option error * Request.t * flags * Reader * Heap :=
  match br with
  | Fail _ err => (Some (Read err), req, fl, Fail "" err, h)
  | Line line br =>
      if decide (line = "") then (None, req, fl, br, h)
      else
        match SplitN line ":" 2 with
        | [h0; h1] =>
            if HasSuffix h0 " " || HasPrefix h0 " "
            then (Some ErrHeaderSpace, req, fl, br, h)
            else if TrimSpace_empty h0
            then (Some ErrHeaderEmpty, req, fl, br, h)
            else if negb (name_bytes h0)
            then (Some ErrHeaderChar, req, fl, br, h)
            else
              let key := CanonicalHeaderKey h0 in
              let value := TrimLeft_space h1 in
              let fl :=
                if decide (key = "Connection")
                then {| checkConn := true; checkHost := checkHost fl |}
                else fl in
              let '(req, fl) :=
                if decide (key = "Host")
                then (Request.set_Host value req,
                      {| checkConn := checkConn fl; checkHost := true |})
                else (req, fl) in
              read_headers br req fl header (store h header key value)
        | _ => (Some ErrHeaderFormat, req, fl, br, h)
        end
  end.

Definition ReadRequest (h : Heap) (br : Reader) : ReadResult :=
  let bytesRec := false in
  let '(line, err, br) := ReadLine br in
  match err with
  | Some err =>
      ((None, negb (String.length line =? 0)%nat, Some err), br, h)
  | None =>
      let bytesRec := true in
      match SplitN line " " 3 with
      | [f0; f1; f2] =>
          if negb (bool_decide (f0 = "GET"))
          then ((None, bytesRec, Some ErrMethod), br, h)
          else if (String.length f0 =? 0)%nat || (String.length f1 =? 0)%nat
                  || (String.length f2 =? 0)%nat
          then ((None, bytesRec, Some ErrEmptyField), br, h)
          else if Contains f0 " " || Contains f1 " " || Contains f2 " "
          then ((None, bytesRec, Some ErrFieldSpace), br, h)
          else if negb (HasPrefix f1 "/")
          then ((None, bytesRec, Some ErrURL), br, h)
          else if negb (bool_decide (f2 = "HTTP/1.1"))
          then ((None, bytesRec, Some ErrProto), br, h)
          else
            let req := Request.zero in
            let req := Request.set_Method f0 req in
            let req := Request.set_Proto f2 req in
            let req := Request.set_URL f1 req in
            let '(header, h) := make h in
            let req := Request.set_Header (Some header) req in
            let fl := {| checkConn := false; checkHost := false |} in
            match read_headers br req fl header h with
            | (Some err, _, _, br, h) => ((None, bytesRec, Some err), br, h)
            | (None, req, fl, br, h) =>
                let '(req, h) :=
                  if checkConn fl then
                    (Request.set_Close
                       (bool_decide
                          (index h (Request.Header req) "Connection"
                           = "close")) req,
                     delete_key h (Request.Header req) "Connection")
                  else (req, h) in
                if checkHost fl then
                  let h := delete_key h (Request.Header req) "Host" in
                  ((Some req, bytesRec, None), br, h)
                else ((None, bytesRec, Some ErrMissingHost), br, h)
            end
      | _ => ((None, bytesRec, Some ErrRequestLine), br, h)
      end
  end.

End Rev.

(** ** [pkg/tritonhttp/response.go]: writing a response *)

(** [sort.Strings] over the keys of a header map: byte-wise order. *)
Definition sorted_keys (m : HeaderMap) : list string :=
  merge_sort String.le (map fst (map_to_list m)).

(** [WriteStatusLine]: the bytes written. *)
Definition WriteStatusLine (res : Response.t) : string :=
  Response.Proto res +:+ " " +:+ Itoa (Response.StatusCode res) +:+ " "
  +:+ statusText (Response.StatusCode res) +:+ CRLF.

(** [WriteSortedHeaders]: the bytes written. *)
Definition WriteSortedHeaders (h : Heap) (res : Response.t) : string :=
  let header_keys := sorted_keys (contents h (Response.Header res)) in
  foldr (fun key out =>
           key +:+ ": " +:+ index h (Response.Header res) key +:+ CRLF
           +:+ out)
        CRLF header_keys.

(** [WriteBody]: the bytes written, or the error of [os.ReadFile]. *)
Definition WriteBody (w : World) (res : Response.t) : option string :=
  if decide (Response.FilePath res = "") then Some ""
  else ReadFile w (Response.FilePath res).

(** [Write]: the bytes that reach the connection, and whether an error is
    returned.  Writes to the connection itself are taken to succeed. *)
Definition Write (w : World) (h : Heap) (res : Response.t) : string * bool :=
  let head := WriteStatusLine res +:+ WriteSortedHeaders h res in
  match WriteBody w res with
  | Some body => (head +:+ body, false)
  | None => (head, true)
  end.

(** What a connection handler does to its connection, in order. *)
Inductive event : Type :=
| Sent (data : string)
| Closed.

(** The end of one turn of the loop of [HandleConnection]: the function
    returned, or the loop goes on with what is left to read. *)
Inductive turn : Type :=
| Return
| Again (br : Reader) (h : Heap).

(** [HandleBadRequest] is the same in both servers. *)
Definition HandleBadRequest (w : World) (h : Heap) (res : Response.t)
  : Response.t * Heap :=
  let '(response_header, h) := make h in
  let h := store h response_header "Date" (FormatTime w (Now w)) in
  let h := store h response_header "Connection" "close" in
  (Response.mk statusBadRequest "HTTP/1.1" (Some response_header) None "", h).

(** [file.ModTime()] and [file.Size()] on the [FileInfo] of [os.Stat]:
    a nil [FileInfo] panics. *)
Definition file_info (st : StatResult) : outcome FileInfo :=
  match st with
  | StatInfo fi => Returns fi
  | _ => Panics "invalid memory address or nil pointer dereference"
  end.

(** [strings.SplitN(path, ".", 2)[1]]. *)
Definition after_first_dot (path : string) : outcome string :=
  match SplitN path "." 2 with
  | _ :: x :: _ => Returns x
  | _ => Panics "index out of range [1] with length 1"
  end.

(** ** The server of [pkg/tritonhttp] *)

Module PkgServer.

Definition HandleOK (w : World) (h : Heap) (res : Response.t)
    (req : Request.t) (path : string) : outcome (Response.t * Heap) :=
  let file := Stat w path in
  let '(response_header, h) := make h in
  let h := store h response_header "Date" (FormatTime w (Now w)) in
  fi ← file_info file ;;;
  let h := store h response_header "Last-Modified"
                 (FormatTime w (ModTime fi)) in
  rest ← after_first_dot path ;;;
  let ext := "." +:+ rest in
  let h := store h response_header "Content-Type"
                 (MIMETypeByExtension w ext) in
  let h := store h response_header "Content-Length" (Itoa (Size fi)) in
  let h := if Request.Close req
           then store h response_header "Connection" "close" else h in
  Returns (Response.mk statusOK (Request.Proto req) (Some response_header)
                       (Some req) path, h).

Definition HandleNotFound (w : World) (h : Heap) (res : Response.t)
    (req : Request.t) : Response.t * Heap :=
  let '(response_header, h) := make h in
  let h := store h response_header "Date" (FormatTime w (Now w)) in
  let h := store h response_header "Connection" "close" in
  (Response.mk statusNotFound "HTTP/1.1" (Some response_header) None "", h).

Definition HandleGoodRequest (w : World) (s : Server) (h : Heap)
    (req : Request.t) : outcome (Response.t * Heap) :=
  let res := Response.zero in
  let path := Filepath.Clean (Filepath.Join [DocRoot s; Request.URL req]) in
  let '(res, h) :=
    if negb (HasPrefix path (DocRoot s)) then HandleNotFound w h res req
    else (res, h) in
  match Stat w path with
  | StatNotExist => Returns (HandleNotFound w h res req)
  | StatError => Panics "invalid memory address or nil pointer dereference"
  | StatInfo fi =>
      if IsDir fi then Returns (HandleNotFound w h res req)
      else HandleOK w h res req path
  end.

(** One turn of the loop of [HandleConnection]: the events on the
    connection and how the turn ends.  Arming the read deadline is taken
    to succeed. *)
Definition serve (w : World) (s : Server) (h : Heap) (br : Reader)
  : outcome (list event * turn) :=
  let '((req, bytesReceived, err), br, h) := Pkg.ReadRequest h br in
  if is_EOF err then Returns ([Closed], Return)
  else if is_Timeout err && negb bytesReceived
  then Returns ([Closed], Return)
  else if is_Timeout err && bytesReceived
  then let '(res, h) := HandleBadRequest w h Response.zero in
       Returns ([Closed], Return)
  else
    match err, req with
    | None, Some req =>
        '(res, h) ← HandleGoodRequest w s h req ;;;
        let '(data, _) := Write w h res in
        if Request.Close req
           || negb (bool_decide (Response.StatusCode res = 200%Z))
        then Returns ([Sent data; Closed], Return)
        else Returns ([Sent data], Again br h)
    | _, _ =>
        let '(res, h) := HandleBadRequest w h Response.zero in
        let '(data, _) := Write w h res in
        Returns ([Sent data; Closed], Return)
    end.

(** [HandleConnection]: the events on the connection until the function
    returns; [None] when [fuel] turns were not enough. *)
Fixpoint HandleConnection (fuel : nat) (w : World) (s : Server) (h : Heap)
    (br : Reader) : option (outcome (list event)) :=
  match fuel with
  | O => None
  | S fuel =>
      match serve w s h br with
      | Panics why => Some (Panics why)
      | Returns (evs, Return) => Some (Returns evs)
      | Returns (evs, Again br h) =>
          match HandleConnection fuel w s h br with
          | Some (Returns evs') => Some (Returns (evs ++ evs')%list)
          | other => other
          end
      end
  end.

End PkgServer.

(** ** The second [server.go] *)

Module RevServer.

Definition HandleOK (w : World) (h : Heap) (res : Response.t)
    (req : Request.t) (path : string) : outcome (Response.t * Heap) :=
  let file := Stat w path in
  let '(header, h) := make h in
  let h := store h header "Date" (FormatTime w (Now w)) in
  fi ← file_info file ;;;
  let h := store h header "Last-Modified" (FormatTime w (ModTime fi)) in
  rest ← after_first_dot path ;;;
  let ext := "." +:+ rest in
  let h := store h header "Content-Type" (MIMETypeByExtension w ext) in
  let h := store h header "Content-Length" (Itoa (Size fi)) in
  let h := if Request.Close req
           then store h header "Connection" "close" else h in
  Returns (Response.mk statusOK (Request.Proto req) (Some header)
                       (Some req) path, h).

(** [res.Header = req.Header]: the response shares the request's map,
    and the assignments that follow go to that map. *)
Definition HandleNotFound (w : World) (h : Heap) (res : Response.t)
    (req : Request.t) : outcome (Response.t * Heap) :=
  let header := Request.Header req in
  h ← assign_or_panic h header "Date" (FormatTime w (Now w)) ;;;
  h ← (if Request.Close req
       then assign_or_panic h header "Connection" "close"
       else Returns h) ;;;
  Returns (Response.mk statusNotFound "HTTP/1.1" header None "", h).

(** The request comes back with the response: [req] is a pointer and
    [req.URL] is assigned to. *)
Definition HandleGoodRequest (w : World) (s : Server) (h : Heap)
    (req : Request.t) : outcome (Response.t * Request.t * Heap) :=
  let res := Response.zero in
  let req :=
    if HasSuffix (Request.URL req) "/"
    then Request.set_URL (Request.URL req +:+ "index.html") req
    else req in
  if decide (Request.URL req = "") then
    '(res, h) ← HandleNotFound w h res req ;;; Returns (res, req, h)
  else
    let path := Filepath.Clean (DocRoot s +:+ Request.URL req) in
    if bool_decide (HasPrefix path (DocRoot s) = false) then
      '(res, h) ← HandleNotFound w h res req ;;; Returns (res, req, h)
    else
      match Stat w path with
      | StatNotExist =>
          '(res, h) ← HandleNotFound w h res req ;;; Returns (res, req, h)
      | StatError =>
          Panics "invalid memory address or nil pointer dereference"
      | StatInfo fi =>
          if IsDir fi then
            '(res, h) ← HandleNotFound w h res req ;;; Returns (res, req, h)
          else
            '(res, h) ← HandleOK w h res req path ;;; Returns (res, req, h)
      end.

Definition serve (w : World) (s : Server) (h : Heap) (br : Reader)
  : outcome (list event * turn) :=
  let '((req, bytesReceived, err), br, h) := Rev.ReadRequest h br in
  if is_EOF err then Returns ([Closed], Return)
  else if is_Timeout err && negb bytesReceived
  then Returns ([Closed], Return)
  else if is_Timeout err && bytesReceived
  then let '(res, h) := HandleBadRequest w h Response.zero in
       let '(data, _) := Write w h res in
       Returns ([Sent data; Closed], Return)
  else
    match err, req with
    | None, Some req =>
        '(res, req, h) ← HandleGoodRequest w s h req ;;;
        let '(data, _) := Write w h res in
        if Request.Close req
           || negb (bool_decide (Response.StatusCode res = 200%Z))
        then Returns ([Sent data; Closed], Return)
        else Returns ([Sent data], Again br h)
    | _, _ =>
        let '(res, h) := HandleBadRequest w h Response.zero in
        let '(data, _) := Write w h res in
        Returns ([Sent data; Closed], Return)
    end.

Fixpoint HandleConnection (fuel : nat) (w : World) (s : Server) (h : Heap)
    (br : Reader) : option (outcome (list event)) :=
  match fuel with
  | O => None
  | S fuel =>
      match serve w s h br with
      | Panics why => Some (Panics why)
      | Returns (evs, Return) => Some (Returns evs)
      | Returns (evs, Again br h) =>
          match HandleConnection fuel w s h br with
          | Some (Returns evs') => Some (Returns (evs ++ evs')%list)
          | other => other
          end
      end
  end.

End RevServer.

(** ** The reference parse of a header block

    What section 4.1 of the specification asks of the parser, written down
    on its own: the header lines up to the blank line, each cut at its
    first colon into a canonical name and a left-trimmed value, and the
    map they give when a later line overwrites an earlier one. *)

Fixpoint header_fields (br : Reader) : list (string * string) :=
  match br with
  | Line line next =>
      if decide (line = "") then []
      else match SplitN line ":" 2 with
           | [name; value] =>
               (CanonicalHeaderKey name, TrimLeft_space value)
               :: header_fields next
           | _ => []
           end
  | Fail _ _ => []
  end.

Definition fields_onto (m : HeaderMap) (fs : list (string * string))
  : HeaderMap :=
  foldl (fun m kv => <[kv.1 := kv.2]> m) m fs.

Definition fields_map (fs : list (string * string)) : HeaderMap :=
  fields_onto ∅ fs.

(** The number of complete lines left to read. *)
Fixpoint lines_left (br : Reader) : nat :=
  match br with
  | Line _ next => S (lines_left next)
  | Fail _ _ => O
  end.

(** The 400 response, as it is written to a connection at time [Now w]. *)
Definition bad_request_bytes (w : World) : string :=
  "HTTP/1.1 400 Bad Request" +:+ CRLF
  +:+ "Connection: close" +:+ CRLF
  +:+ "Date: " +:+ FormatTime w (Now w) +:+ CRLF
  +:+ CRLF.

(** ** Invariants and shapes used in the proofs *)

(** The flags of the header loop of the second parser agree with the map
    [m] filled so far, and the host field holds the value under [Host]. *)
Definition flags_agree (m : HeaderMap) (req : Request.t) (fl : Rev.flags) : Prop :=
  Rev.checkConn fl = bool_decide (is_Some (m !! "Connection"))
  ∧ Rev.checkHost fl = bool_decide (is_Some (m !! "Host"))
  ∧ ∀ v, m !! "Host" = Some v → Request.Host req = v.

(** The header loop assigns to the host field only. *)
Definition same_but_Host (req req' : Request.t) : Prop :=
  Request.Method req' = Request.Method req
  ∧ Request.URL req' = Request.URL req
  ∧ Request.Proto req' = Request.Proto req
  ∧ Request.Header req' = Request.Header req
  ∧ Request.Close req' = Request.Close req.

(** Changing the case of a byte leaves a hyphen a hyphen, and changes
    nothing when done again. *)
Definition case_ok (c : ascii) : bool :=
  bool_decide (Ascii.eqb (to_upper c) "-" = Ascii.eqb c "-")
  && bool_decide (Ascii.eqb (to_lower c) "-" = Ascii.eqb c "-")
  && bool_decide (to_upper (to_upper c) = to_upper c)
  && bool_decide (to_lower (to_lower c) = to_lower c).

(** The cells of [h] are in [h'] as they were. *)
Definition extends (h h' : Heap) : Prop :=
  ∀ l, (l < List.length h)%nat → h' !! l = h !! l.

(** What [HandleOK] puts into the header map of a 200 response. *)
Definition ok_headers (w : World) (fi : FileInfo) (rest : string)
    (close : bool) : HeaderMap :=
  let m := <["Content-Length" := Itoa (Size fi)]>
             (<["Content-Type" := MIMETypeByExtension w ("." +:+ rest)]>
                (<["Last-Modified" := FormatTime w (ModTime fi)]>
                   (<["Date" := FormatTime w (Now w)]> ∅))) in
  if close then <["Connection" := "close"]> m else m.

(** The request as [HandleGoodRequest] of the second server leaves it:
    [index.html] appended to a target that ends in a slash. *)
Definition expanded (req : Request.t) : Request.t :=
  if HasSuffix (Request.URL req) "/"
  then Request.set_URL (Request.URL req +:+ "index.html") req
  else req.

(** ** The bytes a parse reads, and the header block as the code sees it *)

(** The header lines before the blank line. *)
Fixpoint block_lines (br : Reader) : list string :=
  match br with
  | Line line next =>
      if decide (line = "") then [] else line :: block_lines next
  | Fail _ _ => []
  end.

(** What is left to read after the blank line that ends the header block;
    after a failed read, the reader that fails again. *)
Fixpoint after_blank (br : Reader) : Reader :=
  match br with
  | Line line next => if decide (line = "") then next else after_blank next
  | Fail _ err => Fail "" err
  end.

(** A header line the second parser accepts: a colon, and before it a
    name that is not empty and holds digits, letters and hyphens only. *)
Definition header_line_ok (line : string) : bool :=
  match SplitN line ":" 2 with
  | [name; _] => negb (bool_decide (name = "")) && Rev.name_bytes name
  | _ => false
  end.

(** The header lines up to the blank line, each cut at its first colon and
    taken as it is: the fields as [pkg/tritonhttp/request.go] stores
    them. *)
Fixpoint raw_fields (br : Reader) : list (string * string) :=
  match br with
  | Line line next =>
      if decide (line = "") then []
      else match SplitN line ":" 2 with
           | [name; value] => (name, value) :: raw_fields next
           | _ => []
           end
  | Fail _ _ => []
  end.

(** Whether a field is the one that sets the close flag in
    [pkg/tritonhttp/request.go]: spelled [Connection], its value [close]
    with nothing before it. *)
Definition asks_close (kv : string * string) : bool :=
  bool_decide (kv.1 = "Connection" ∧ kv.2 = "close").


(** Whether the header block ends: a blank line comes before the read
    fails. *)
Fixpoint has_blank (br : Reader) : bool :=
  match br with
  | Line line next => if decide (line = "") then true else has_blank next
  | Fail _ _ => false
  end.

(** ** [request_test.go]: the tables of the parser tests *)

Module Tests.

(** What [reflect.DeepEqual] compares of a request: its fields, and the
    contents of its header map. *)
Record observed : Type := Want {
  wMethod : string;
  wURL : string;
  wProto : string;
  wHeader : gmap string string;
  wHost : string;
  wClose : bool
}.

Global Instance observed_eq_dec : EqDecision observed.
Proof. solve_decision. Defined.

Definition observe (r : ReadResult) : option observed :=
  match r with
  | ((Some req, _, None), _, h) =>
      Some (Want (Request.Method req) (Request.URL req) (Request.Proto req)
                 (contents h (Request.Header req)) (Request.Host req)
                 (Request.Close req))
  | _ => None
  end.

(** The request text made of [lines], each followed by CRLF. *)
Definition text (lines : list string) : string :=
  foldr (fun line out => line +:+ CRLF +:+ out) "" lines.

(** [strings.NewReader(text)]: the text, then the end of the stream. *)
Definition reader (lines : list string) : Reader :=
  NewReader (text lines) io_EOF.

Definition get_index : string := "GET /index.html HTTP/1.1".

(** The table of [TestReadGoodRequest]. *)
Definition good_requests : list (string * list string * observed) :=
  [ ("Basic", [get_index; "Host: test"; ""],
     Want "GET" "/index.html" "HTTP/1.1" ∅ "test" false);
    ("Close", [get_index; "Host: test"; "Connection: close"; ""],
     Want "GET" "/index.html" "HTTP/1.1" ∅ "test" true);
    ("MiscHeaders",
     [get_index; "Host: test"; "Connection: close"; "Key1: val1";
      "Key2:   val2"; ""],
     Want "GET" "/index.html" "HTTP/1.1"
          {[ "Key1" := "val1"; "Key2" := "val2" ]} "test" true);
    ("DontExpandSlashHere", ["GET / HTTP/1.1"; "Host: test"; ""],
     Want "GET" "/" "HTTP/1.1" ∅ "test" false);
    ("EmptyValueInConnection",
     [get_index; "Host: test"; "Connection: "; ""],
     Want "GET" "/index.html" "HTTP/1.1" ∅ "test" false);
    ("MiscHeaders2",
     [get_index; "Host: test"; "Connection: close"; "key1: val1";
      "key2: val2  "; ""],
     Want "GET" "/index.html" "HTTP/1.1"
          {[ "Key1" := "val1"; "Key2" := "val2  " ]} "test" true);
    ("EmptyValueHeader",
     [get_index; "Host: test"; "Connection: close"; "key1:"; "key2:    "; ""],
     Want "GET" "/index.html" "HTTP/1.1"
          {[ "Key1" := ""; "Key2" := "" ]} "test" true);
    ("AlternativeFormOfConnection",
     [get_index; "Host: test"; "connection: close"; ""],
     Want "GET" "/index.html" "HTTP/1.1" ∅ "test" true);
    ("OtherValuesInConnection",
     [get_index; "Host: test"; "Connection: something-else"; ""],
     Want "GET" "/index.html" "HTTP/1.1" ∅ "test" false);
    ("MultipleColons",
     [get_index; "Host: test"; "Connection: close"; "key1:123:";
      "key2:456::ab:hello?:@"; ""],
     Want "GET" "/index.html" "HTTP/1.1"
          {[ "Key1" := "123:"; "Key2" := "456::ab:hello?:@" ]} "test" true);
    ("SpaceAfterClose", [get_index; "Host: test"; "connection:close  "; ""],
     Want "GET" "/index.html" "HTTP/1.1" ∅ "test" false);
    ("SpaceBeforeClose", [get_index; "Host: test"; "connection:   close"; ""],
     Want "GET" "/index.html" "HTTP/1.1" ∅ "test" true) ].

(** The table of [TestReadBadRequest]. *)
Definition bad_requests : list (string * list string) :=
  [ ("Basic", ["This is a bad request"]);
    ("Empty", [""]);
    ("LeadingAndTrailingWhiteSpace",
     ["  GET /index.html HTTP/1.1  "; "Host: test"; ""]);
    ("WrongHeaders",
     [get_index; "Host: test"; "Connection: close"; "key1 val1"; ""]);
    ("WrongHeadersKey",
     [get_index; "Host: test"; "Connection: close"; "key?1: val1"; ""]);
    ("MalformedURL", ["GET subdir/ HTTP/1.1"; "Host: test"; ""]) ].

(** [checkGoodRequest] and [checkBadRequest] on a parser. *)
Definition passes_good (parse : Heap → Reader → ReadResult)
    (t : string * list string * observed) : bool :=
  bool_decide (observe (parse [] (reader t.1.2)) = Some t.2).

Definition passes_bad (parse : Heap → Reader → ReadResult)
    (t : string * list string) : bool :=
  bool_decide (failure (parse [] (reader t.2)) ≠ None).

(** [TestReadMultipleRequests]: two requests read from one reader. *)
Definition two_reads (parse : Heap → Reader → ReadResult)
    (lines : list string) : option observed * option observed :=
  let r1 := parse [] (reader lines) in
  let r2 := parse r1.2 r1.1.2 in
  (observe r1, observe r2).

End Tests.

(** ** A site to run the servers on *)

Module Site.

Definition regular (size : Z) : StatResult :=
  StatInfo {| IsDir := false; Size := size; ModTime := 1000 |}.

Definition directory : StatResult :=
  StatInfo {| IsDir := true; Size := 0; ModTime := 1000 |}.

(** [/srv/www] holds [index.html] and [README]; [secret.txt] lies next
    to it, outside the document root. *)
Definition stat (path : string) : StatResult :=
  if decide (path = "/srv/www/index.html") then regular 12
  else if decide (path = "/srv/www/README") then regular 6
  else if decide (path = "/srv/secret.txt") then regular 6
  else if decide (path = "/srv/www" ∨ path = "/srv") then directory
  else StatNotExist.

Definition read_file (path : string) : option string :=
  if decide (path = "/srv/www/index.html") then Some "hello world!"
  else if decide (path = "/srv/www/README") then Some "readme"
  else if decide (path = "/srv/secret.txt") then Some "secret"
  else None.

Definition mime (ext : string) : string :=
  if decide (ext = ".html") then "text/html"
  else "application/octet-stream".

Definition world : World :=
  {| Now := 2000;
     Stat := stat;
     ReadFile := read_file;
     FormatTime := fun t => "t" +:+ Itoa t;
     MIMETypeByExtension := mime |}.

Definition server : Server := {| Addr := ":8080"; DocRoot := "/srv/www" |}.

(** [GET target HTTP/1.1], a [Host] header, the [extra] header lines and
    the blank line. *)
Definition get (target : string) (extra : list string) : string :=
  "GET " +:+ target +:+ " HTTP/1.1" +:+ CRLF
  +:+ "Host: test" +:+ CRLF
  +:+ foldr (fun line out => line +:+ CRLF +:+ out) CRLF extra.

End Site.

(** * Properties *)

(** ** The library functions, on the examples of their documentation *)

(** [filepath.Clean], on cases of the table of its tests in Go. *)
Example Clean_examples :
  map Filepath.Clean
    ["abc//def//ghi"; "abc/./def"; "abc/def/../.."; "/abc/../.."; "../abc";
     "abc/../../././../def"; ""; "/"; "/../abc"; "abc/"; "//abc"; "."]
  = ["abc/def/ghi"; "abc/def"; "."; "/"; "../abc";
     "../../def"; "."; "/"; "/abc"; "abc"; "/abc"; "."].
Proof. vm_compute. reflexivity. Qed.

(** [filepath.Join]: empty elements are ignored, the result is cleaned. *)
Example Join_examples :
  map Filepath.Join [["a"; "b"]; ["a"; ""]; [""; "b"]; ["/"; "a"]; ["a"; "/b"];
                     [""; ""]; ["/srv/www"; "/../secret.txt"]]
  = ["a/b"; "a"; "b"; "/a"; "a/b"; ""; "/srv/secret.txt"].
Proof. vm_compute. reflexivity. Qed.

(** [strings.SplitN]: at most [n] parts, the last one unsplit. *)
Example SplitN_examples :
  SplitN "a,b,c,d" "," 2 = ["a"; "b,c,d"]
  ∧ SplitN "a,b,c,d" "," 0 = []
  ∧ SplitN "" " " 3 = [""]
  ∧ SplitN "a  b" " " 3 = ["a"; ""; "b"]
  ∧ SplitN "Host: a:b" ":" 2 = ["Host"; " a:b"]
  ∧ SplitN "README" "." 2 = ["README"].
Proof. vm_compute. repeat split; reflexivity. Qed.

(** White space for [strings.TrimSpace] is more than the space: a header
    name made of a no-break space (U+00A0) trims to nothing. *)
Example TrimSpace_empty_examples :
  map TrimSpace_empty [""; "   "; bytes [9; 32]; bytes [194; 160]; " a "; "a"]
  = [true; true; true; true; false; false].
Proof. vm_compute. reflexivity. Qed.

Example CanonicalHeaderKey_examples :
  map CanonicalHeaderKey ["host"; "CONNECTION"; "accept-encoding"; "Key1"]
  = ["Host"; "Connection"; "Accept-Encoding"; "Key1"].
Proof. vm_compute. reflexivity. Qed.

(** Canonicalizing twice is canonicalizing once. *)

Lemma case_ok_every (c : ascii) : case_ok c = true.
Proof.
  assert (forallb (fun n => case_ok (ascii_of_nat n)) (seq 0 256) = true)
    as Hall by (vm_compute; reflexivity).
  rewrite forallb_forall in Hall.
  specialize (Hall (nat_of_ascii c)). rewrite ascii_nat_embedding in Hall.
  apply Hall, in_seq. pose proof (nat_ascii_bounded c). lia.
Qed.

Lemma canonical_go_idempotent (s : string) (upper : bool) :
  canonical_go upper (canonical_go upper s) = canonical_go upper s.
Proof.
  revert upper. induction s as [| c s IH]; intros upper; [reflexivity |].
  cbn [canonical_go].
  pose proof (case_ok_every c) as Hc. unfold case_ok in Hc.
  rewrite !andb_true_iff, !bool_decide_eq_true in Hc.
  destruct Hc as [[[Hu Hl] Huu] Hll].
  destruct upper; rewrite ?Hu, ?Hl, ?Huu, ?Hll, IH; reflexivity.
Qed.

Corollary CanonicalHeaderKey_idempotent (s : string) :
  CanonicalHeaderKey (CanonicalHeaderKey s) = CanonicalHeaderKey s.
Proof. apply canonical_go_idempotent. Qed.

(** The reader over the bytes of a connection: complete lines, then what
    is left when the read fails. *)
Example NewReader_example :
  NewReader ("GET / HTTP/1.1" +:+ CRLF +:+ CRLF +:+ "GE") net_Timeout
  = Line "GET / HTTP/1.1" (Line "" (Fail "GE" net_Timeout)).
Proof. vm_compute. reflexivity. Qed.

(** ** The heap of header maps *)

Section heap.
Implicit Types (h : Heap) (l : nat) (k v : string) (m : mapref).

(** A store changes one cell and no length. *)
Lemma length_store h l k v : List.length (store h l k v) = List.length h.
Proof. unfold store. apply length_alter. Qed.

Lemma lookup_store_ne h l l' k v : l ≠ l' → store h l k v !! l' = h !! l'.
Proof. intros. unfold store. by apply list_lookup_alter_ne. Qed.

(** A store to a cell of the heap is an insertion into its map. *)
Lemma contents_store h l k v :
  (l < List.length h)%nat →
  contents (store h l k v) (Some l) = <[k := v]> (contents h (Some l)).
Proof.
  intros Hl. unfold contents, store. rewrite list_lookup_alter_eq.
  destruct (lookup_lt_is_Some_2 h l Hl) as [x ->]. reflexivity.
Qed.

(** [delete] on a cell is the deletion from its map. *)
Lemma contents_delete_key h l k :
  contents (delete_key h (Some l) k) (Some l) = delete k (contents h (Some l)).
Proof.
  unfold contents, delete_key. rewrite list_lookup_alter_eq.
  destruct (h !! l); simpl; [reflexivity | by rewrite delete_empty].
Qed.

(** [make] appends an empty cell and leaves the others. *)
Lemma make_spec h l h' :
  make h = (l, h') →
  l = List.length h ∧ List.length h' = S (List.length h)
  ∧ contents h' (Some l) = ∅
  ∧ ∀ l', (l' < List.length h)%nat → h' !! l' = h !! l'.
Proof.
  unfold make. intros [= <- <-]. split; [reflexivity |].
  split; [rewrite length_app; simpl; lia |].
  split.
  - unfold contents. rewrite lookup_app_r by lia.
    by rewrite Nat.sub_diag.
  - intros l' Hl'. by apply lookup_app_l.
Qed.
End heap.

(** ** The second parser against the reference parse *)

(** One turn of the header loop keeps the flags in step with the map. *)
Lemma flags_agree_step (m : HeaderMap) (req : Request.t) (fl : Rev.flags)
    (key value : string) :
  flags_agree m req fl →
  let fl1 :=
    if decide (key = "Connection")
    then {| Rev.checkConn := true; Rev.checkHost := Rev.checkHost fl |}
    else fl in
  let rf :=
    if decide (key = "Host")
    then (Request.set_Host value req,
          {| Rev.checkConn := Rev.checkConn fl1; Rev.checkHost := true |})
    else (req, fl1) in
  flags_agree (<[key := value]> m) rf.1 rf.2.
Proof.
  intros (Hc & Hh & Hv). simpl.
  destruct (decide (key = "Connection")) as [Hkc | Hkc];
    destruct (decide (key = "Host")) as [Hkh | Hkh];
    try (exfalso; congruence); subst; simpl; unfold flags_agree; simpl.
  - rewrite lookup_insert_eq, lookup_insert_ne by done.
    split; [by rewrite bool_decide_eq_true_2 by eauto |]. split; [done |]. done.
  - rewrite lookup_insert_eq, lookup_insert_ne by done.
    split; [done |]. split; [by rewrite bool_decide_eq_true_2 by eauto |].
    by intros v [= <-].
  - rewrite !lookup_insert_ne by done. done.
Qed.

(** The exits of the header loop that do not go round again. *)
Ltac loop_exit :=
  intros [= <- <- <- <- <-]; unfold same_but_Host;
  split; [done |]; split; [done |]; split; [done |];
  split; [simpl; lia |]; split; [discriminate |];
  first [discriminate | intros _; split; [reflexivity | tauto]].

(** The header loop writes to the cell of its map only, assigns to the
    host field only, never reports a missing host, and after the blank
    line the map holds the fields read, in step with the flags. *)
Lemma rev_read_headers_spec br : ∀ req fl header h oe req' fl' br' h',
  (header < List.length h)%nat →
  Rev.read_headers br req fl header h = (oe, req', fl', br', h') →
  List.length h' = List.length h
  ∧ (∀ l, l ≠ header → h' !! l = h !! l)
  ∧ same_but_Host req req'
  ∧ (lines_left br' ≤ lines_left br)%nat
  ∧ oe ≠ Some ErrMissingHost
  ∧ (oe = None →
     contents h' (Some header)
       = fields_onto (contents h (Some header)) (header_fields br)
     ∧ (flags_agree (contents h (Some header)) req fl →
        flags_agree (contents h' (Some header)) req' fl')).
Proof.
  induction br as [line next IH | partial err];
    intros req fl header h oe req' fl' br' h' Hl;
    cbn [Rev.read_headers header_fields lines_left]; [| loop_exit].
  destruct (decide (line = "")) as [-> | Hline]; [loop_exit |].
  destruct (SplitN line ":" 2) as [| h0 [| h1 [| ? ?]]] eqn:Hsplit;
    try loop_exit.
  destruct (HasSuffix h0 " " || HasPrefix h0 " "); [loop_exit |].
  destruct (TrimSpace_empty h0); [loop_exit |].
  destruct (negb (Rev.name_bytes h0)); [loop_exit |].
  set (key := CanonicalHeaderKey h0). set (value := TrimLeft_space h1).
  pose proof (flags_agree_step (contents h (Some header)) req fl key value)
    as Hstep.
  simpl in Hstep.
  destruct (decide (key = "Host")) as [Hk | Hk]; simpl in Hstep;
    intros Hrec;
    apply IH in Hrec as (Hlen & Hother & Hsame & Hleft & Hnot & Hok);
    try (by rewrite length_store);
    rewrite length_store in Hlen;
    (split; [done |]);
    (split; [intros l Hne; rewrite Hother by done; by apply lookup_store_ne |]);
    (split; [unfold same_but_Host in *; simpl in *; done |]);
    (split; [simpl; lia |]); (split; [done |]);
    intros ->; destruct (Hok eq_refl) as [Hc Hf];
    rewrite contents_store in Hc, Hf by done;
    (split; [done |]); intros Hag; apply Hf, Hstep, Hag.
Qed.

(** Before the loop: an empty map and both flags down. *)
Lemma flags_agree_init (req : Request.t) :
  flags_agree ∅ req {| Rev.checkConn := false; Rev.checkHost := false |}.
Proof.
  unfold flags_agree. simpl. rewrite !lookup_empty.
  split; [| split]; try (symmetry; apply bool_decide_eq_false_2; by intros [? ?]).
  intros v [=].
Qed.

(** A request the second parser returns is the reference parse of the
    bytes read: the request line is [GET target HTTP/1.1] and the target
    is stored as it is; the host is the value of the last [Host] field;
    the close flag says whether the last [Connection] field is [close];
    the header map, a new one, holds the other fields. *)
Theorem rev_ReadRequest_reference (h : Heap) (br : Reader) (req : Request.t)
    (b : bool) (err : option error) (br' : Reader) (h' : Heap) :
  Rev.ReadRequest h br = ((Some req, b, err), br', h') →
  ∃ line next target,
    br = Line line next
    ∧ SplitN line " " 3 = ["GET"; target; "HTTP/1.1"]
    ∧ b = true ∧ err = None
    ∧ Request.Method req = "GET"
    ∧ Request.URL req = target
    ∧ Request.Proto req = "HTTP/1.1"
    ∧ Request.Header req = Some (List.length h)
    ∧ (∀ l, (l < List.length h)%nat → h' !! l = h !! l)
    ∧ (lines_left br' < lines_left br)%nat
    ∧ let m := fields_map (header_fields next) in
      m !! "Host" = Some (Request.Host req)
      ∧ Request.Close req = bool_decide (m !! "Connection" = Some "close")
      ∧ contents h' (Request.Header req)
        = delete "Host" (delete "Connection" m).
Proof.
  unfold Rev.ReadRequest.
  destruct br as [line next | partial e]; cbn [ReadLine]; [| discriminate].
  destruct (SplitN line " " 3) as [| f0 [| f1 [| f2 [| ? ?]]]] eqn:Hsplit;
    try discriminate.
  destruct (negb (bool_decide (f0 = "GET"))) eqn:Hget; [discriminate |].
  apply negb_false_iff, bool_decide_eq_true_1 in Hget as ->.
  destruct (_ || _ || _); [discriminate |].
  destruct (_ || _ || _); [discriminate |].
  destruct (negb (HasPrefix f1 "/")); [discriminate |].
  destruct (negb (bool_decide (f2 = "HTTP/1.1"))) eqn:Hproto; [discriminate |].
  apply negb_false_iff, bool_decide_eq_true_1 in Hproto as ->.
  destruct (make h) as [header h0] eqn:Hmake.
  apply make_spec in Hmake as (-> & Hlen0 & Hempty & Hold).
  match goal with |- context [Rev.read_headers next ?r ?f _ _] =>
    set (req0 := r); set (fl0 := f) end.
  destruct (Rev.read_headers next req0 fl0 (List.length h) h0)
    as [[[[oe req1] fl1] br1] h1] eqn:Hloop.
  apply rev_read_headers_spec in Hloop
    as (Hlen1 & Hother & Hsame & Hleft & _ & Hok); [| lia].
  destruct oe as [e |]; [discriminate |].
  destruct (Hok eq_refl) as [Hc Hag]. clear Hok.
  rewrite Hempty in Hc, Hag.
  specialize (Hag (flags_agree_init req0)).
  destruct Hag as (Hconn & Hhost & Hval). rewrite Hc in Hconn, Hhost, Hval.
  destruct Hsame as (HM & HU & HP & HH & HC).
  fold (fields_map (header_fields next)) in *.
  remember (fields_map (header_fields next)) as m eqn:Hmdef.
  assert (Request.Header req1 = Some (List.length h)) as Hhdr by (by rewrite HH).
  destruct (Rev.checkHost fl1) eqn:Hch.
  2:{ destruct (Rev.checkConn fl1); discriminate. }
  symmetry in Hhost. apply bool_decide_eq_true_1 in Hhost as [host Hm].
  destruct (Rev.checkConn fl1) eqn:Hcc.
  - symmetry in Hconn. apply bool_decide_eq_true_1 in Hconn as [conn Hmc].
    intros [= <- <- <- <- <-]. exists line, next, f1.
    cbv zeta. rewrite <- Hmdef.
    cbn [Request.Method Request.URL Request.Proto Request.Header Request.Host
         Request.Close Request.set_Close].
    rewrite HM, HU, HP, Hhdr.
    assert (List.length h1 = S (List.length h)) as Hl1 by lia.
    split_and!; try done.
    + intros l Hl. unfold delete_key.
      rewrite !list_lookup_alter_ne by lia. rewrite Hother by lia. by apply Hold.
    + simpl. lia.
    + rewrite Hm. f_equal. symmetry. by apply Hval.
    + unfold index. rewrite Hc, Hmc. simpl.
      apply bool_decide_ext. split; [by intros -> | by intros [= ->]].
    + rewrite !contents_delete_key. by rewrite Hc.
  - symmetry in Hconn. apply bool_decide_eq_false_1 in Hconn.
    assert (m !! "Connection" = None) as Hmc.
    { destruct (m !! "Connection") eqn:E; [| done]. exfalso. apply Hconn. eauto. }
    intros [= <- <- <- <- <-]. exists line, next, f1.
    cbv zeta. rewrite <- Hmdef.
    rewrite HM, HU, HP, Hhdr, HC.
    split_and!; try done.
    + intros l Hl. unfold delete_key.
      rewrite !list_lookup_alter_ne by lia. rewrite Hother by lia. by apply Hold.
    + simpl. lia.
    + rewrite Hm. f_equal. symmetry. by apply Hval.
    + rewrite Hmc. symmetry. by apply bool_decide_eq_false_2.
    + rewrite contents_delete_key, Hc. by rewrite (delete_id m "Connection").
Qed.

(** X5: the second [ReadRequest] returns the missing-host error only when
    the request line was read and the header block had no field whose
    canonical name is [Host]; it then returns no request, and says that
    bytes were received. *)
Theorem rev_ReadRequest_missing_Host (h : Heap) (br : Reader) :
  failure (Rev.ReadRequest h br) = Some ErrMissingHost →
  parsed (Rev.ReadRequest h br) = None
  ∧ bytesReceived (Rev.ReadRequest h br) = true
  ∧ ∃ line next,
      br = Line line next
      ∧ fields_map (header_fields next) !! "Host" = None.
Proof.
  unfold Rev.ReadRequest, failure, parsed, bytesReceived.
  destruct br as [line next | partial e]; cbn [ReadLine]; [| discriminate].
  destruct (SplitN line " " 3) as [| f0 [| f1 [| f2 [| ? ?]]]] eqn:Hsplit;
    try discriminate.
  destruct (negb (bool_decide (f0 = "GET"))); [discriminate |].
  destruct (_ || _ || _); [discriminate |].
  destruct (_ || _ || _); [discriminate |].
  destruct (negb (HasPrefix f1 "/")); [discriminate |].
  destruct (negb (bool_decide (f2 = "HTTP/1.1"))); [discriminate |].
  destruct (make h) as [header h0] eqn:Hmake.
  apply make_spec in Hmake as (-> & Hlen0 & Hempty & Hold).
  match goal with |- context [Rev.read_headers next ?r ?f _ _] =>
    set (req0 := r); set (fl0 := f) end.
  destruct (Rev.read_headers next req0 fl0 (List.length h) h0)
    as [[[[oe req1] fl1] br1] h1] eqn:Hloop.
  apply rev_read_headers_spec in Hloop
    as (Hlen1 & Hother & Hsame & Hleft & Hnot & Hok); [| lia].
  destruct oe as [e |]; [simpl; intros [= ->]; done |].
  destruct (Hok eq_refl) as [Hc Hag]. clear Hok.
  rewrite Hempty in Hc, Hag.
  specialize (Hag (flags_agree_init req0)).
  destruct Hag as (_ & Hhost & _). rewrite Hc in Hhost.
  fold (fields_map (header_fields next)) in *.
  destruct (Rev.checkHost fl1) eqn:Hch.
  { destruct (Rev.checkConn fl1); discriminate. }
  symmetry in Hhost. apply bool_decide_eq_false_1 in Hhost.
  intros _. split; [by destruct (Rev.checkConn fl1) |].
  split; [by destruct (Rev.checkConn fl1) |].
  exists line, next. split; [done |].
  destruct (fields_map (header_fields next) !! "Host") eqn:E; [| done].
  exfalso. apply Hhost. eauto.
Qed.

(** [bytesReceived] of the second parser, on every path. *)
Lemma rev_ReadRequest_bytesReceived (h : Heap) (br : Reader) :
  bytesReceived (Rev.ReadRequest h br) = delivers_bytes br.
Proof.
  unfold Rev.ReadRequest, bytesReceived.
  destruct br as [line next | partial err]; simpl; [| reflexivity].
  repeat case_match; reflexivity.
Qed.

(** ** The servers *)

Lemma extends_refl h : extends h h.
Proof. by intros l Hl. Qed.

(** [extends] composes along growing heaps, and stores to cells beyond
    [h] do not disturb it. *)
Lemma extends_length h h' h'' :
  (List.length h ≤ List.length h')%nat → extends h h' → extends h' h'' →
  extends h h''.
Proof. intros Hlen H1 H2 l Hl. rewrite H2 by lia. by apply H1. Qed.

Lemma extends_store h h' l k v :
  (List.length h ≤ l)%nat → extends h h' → extends h (store h' l k v).
Proof. intros Hl He l' Hl'. rewrite lookup_store_ne by lia. by apply He. Qed.

(** The 400 response: a new map with Date and Connection: close. *)
Lemma HandleBadRequest_spec (w : World) (h : Heap) (res0 res : Response.t)
    (h' : Heap) :
  HandleBadRequest w h res0 = (res, h') →
  res = Response.mk 400 "HTTP/1.1" (Some (List.length h)) None ""
  ∧ List.length h' = S (List.length h)
  ∧ extends h h'
  ∧ contents h' (Response.Header res)
    = <["Connection" := "close"]> (<["Date" := FormatTime w (Now w)]> ∅).
Proof.
  unfold HandleBadRequest. destruct (make h) as [l h0] eqn:Hmake.
  intros [= <- <-].
  pose proof Hmake as Hm.
  apply make_spec in Hm as (-> & Hlen & Hempty & Hold).
  split; [reflexivity |].
  split; [by rewrite !length_store |].
  split; [apply extends_store; [lia |]; apply extends_store; [lia | done] |].
  cbn [Response.Header].
  rewrite !contents_store by (rewrite ?length_store; lia).
  by rewrite Hempty.
Qed.

(** The 404 response of the server of [pkg/tritonhttp]: a new map with
    Date and Connection: close. *)
Lemma pkg_HandleNotFound_spec (w : World) (h : Heap) (res0 res : Response.t)
    (req : Request.t) (h' : Heap) :
  PkgServer.HandleNotFound w h res0 req = (res, h') →
  res = Response.mk 404 "HTTP/1.1" (Some (List.length h)) None ""
  ∧ List.length h' = S (List.length h)
  ∧ extends h h'
  ∧ contents h' (Response.Header res)
    = <["Connection" := "close"]> (<["Date" := FormatTime w (Now w)]> ∅).
Proof.
  unfold PkgServer.HandleNotFound. destruct (make h) as [l h0] eqn:Hmake.
  intros [= <- <-].
  pose proof Hmake as Hm.
  apply make_spec in Hm as (-> & Hlen & Hempty & Hold).
  split; [reflexivity |].
  split; [by rewrite !length_store |].
  split; [apply extends_store; [lia |]; apply extends_store; [lia | done] |].
  cbn [Response.Header].
  rewrite !contents_store by (rewrite ?length_store; lia).
  by rewrite Hempty.
Qed.

(** When [HandleOK] returns, the file exists, its path has a dot, and the
    200 response has a new map holding [ok_headers]. *)
Lemma pkg_HandleOK_spec (w : World) (h : Heap) (res0 res : Response.t)
    (req : Request.t) (path : string) (h' : Heap) :
  PkgServer.HandleOK w h res0 req path = Returns (res, h') →
  ∃ fi rest,
    Stat w path = StatInfo fi
    ∧ SplitN path "." 2 = [(SplitN path "." 2 !!! 0%nat); rest]
    ∧ res = Response.mk 200 (Request.Proto req) (Some (List.length h))
                        (Some req) path
    ∧ List.length h' = S (List.length h)
    ∧ extends h h'
    ∧ contents h' (Response.Header res)
      = ok_headers w fi rest (Request.Close req).
Proof.
  unfold PkgServer.HandleOK. destruct (make h) as [l h0] eqn:Hmake.
  pose proof Hmake as Hm.
  apply make_spec in Hm as (-> & Hlen & Hempty & Hold).
  unfold file_info, after_first_dot.
  destruct (Stat w path) as [fi | |]; cbn [outcome_bind]; try discriminate.
  destruct (SplitN path "." 2) as [| p0 [| rest [| ? ?]]] eqn:Hsplit;
    cbn [outcome_bind]; try discriminate.
  - intros [= <- <-]. exists fi, rest.
    split; [done |]. split; [done |]. split; [done |].
    split; [destruct (Request.Close req); by rewrite !length_store |].
    split.
    { destruct (Request.Close req);
        repeat (apply extends_store; [lia |]); done. }
    cbn [Response.Header]. unfold ok_headers.
    destruct (Request.Close req);
      rewrite !contents_store by (rewrite ?length_store; lia);
      by rewrite Hempty.
  - exfalso. clear -Hsplit. cbn in Hsplit.
    destruct (Cut path "."); [destruct p |]; discriminate.
Qed.

(** Every response of the server of [pkg/tritonhttp] to a parsed request:
    200 or 404, a header map made for it, a Date header, and
    Connection: close on the 404. *)
Theorem pkg_HandleGoodRequest_response (w : World) (s : Server) (h : Heap)
    (req : Request.t) (res : Response.t) (h' : Heap) :
  PkgServer.HandleGoodRequest w s h req = Returns (res, h') →
  ∃ l,
    Response.Header res = Some l
    ∧ (List.length h ≤ l)%nat
    ∧ extends h h'
    ∧ is_Some (contents h' (Some l) !! "Date")
    ∧ (Response.StatusCode res = 200%Z
       ∨ Response.StatusCode res = 404%Z
         ∧ contents h' (Some l) !! "Connection" = Some "close").
Proof.
  unfold PkgServer.HandleGoodRequest.
  set (path := Filepath.Clean _).
  destruct (if negb (HasPrefix path (DocRoot s))
            then PkgServer.HandleNotFound w h Response.zero req
            else (Response.zero, h)) as [res1 h1] eqn:Hfirst.
  assert ((List.length h ≤ List.length h1)%nat ∧ extends h h1) as [Hlen1 Hext1].
  { destruct (negb (HasPrefix path (DocRoot s))).
    - apply pkg_HandleNotFound_spec in Hfirst as (_ & Hl & He & _).
      split; [lia | done].
    - injection Hfirst as <- <-. split; [lia | apply extends_refl]. }
  assert (∀ r h2, PkgServer.HandleNotFound w h1 res1 req = (r, h2) →
          ∃ l, Response.Header r = Some l ∧ (List.length h ≤ l)%nat
               ∧ extends h h2
               ∧ is_Some (contents h2 (Some l) !! "Date")
               ∧ (Response.StatusCode r = 200%Z
                  ∨ Response.StatusCode r = 404%Z
                    ∧ contents h2 (Some l) !! "Connection" = Some "close"))
    as Hnf.
  { intros r h2 Hr.
    apply pkg_HandleNotFound_spec in Hr as (-> & Hl & He & Hc).
    cbn [Response.Header] in Hc. exists (List.length h1).
    split; [done |]. split; [done |].
    split; [by apply (extends_length h h1 h2) |].
    rewrite Hc. split.
    - rewrite lookup_insert_ne, lookup_insert_eq by done. eauto.
    - right. split; [done |]. by rewrite lookup_insert_eq. }
  destruct (Stat w path) as [fi | |] eqn:Hstat; [| | discriminate].
  - destruct (IsDir fi).
    + destruct (PkgServer.HandleNotFound w h1 res1 req) as [r h2] eqn:Hr.
      intros [= <- <-]. by apply Hnf.
    + intros Hok. apply pkg_HandleOK_spec in Hok
        as (fi' & rest & _ & _ & -> & Hl & He & Hc).
      cbn [Response.Header] in Hc. exists (List.length h1).
      split; [done |]. split; [done |].
      split; [by apply (extends_length h h1 h') |].
      rewrite Hc. split; [| by left].
      unfold ok_headers. destruct (Request.Close req);
        rewrite ?lookup_insert_ne by done; rewrite lookup_insert_eq; eauto.
  - destruct (PkgServer.HandleNotFound w h1 res1 req) as [r h2] eqn:Hr.
    intros [= <- <-]. by apply Hnf.
Qed.

(** X11: the server of [pkg/tritonhttp] builds every response in a map of
    its own: the header map of the request is not the map of the
    response, and is left as it was. *)
Corollary pkg_HandleGoodRequest_fresh_map (w : World) (s : Server) (h : Heap)
    (req : Request.t) (res : Response.t) (h' : Heap) (l : nat) :
  Request.Header req = Some l → (l < List.length h)%nat →
  PkgServer.HandleGoodRequest w s h req = Returns (res, h') →
  Response.Header res ≠ Request.Header req
  ∧ contents h' (Request.Header req) = contents h (Request.Header req).
Proof.
  intros Hreq Hl Hres.
  apply pkg_HandleGoodRequest_response in Hres
    as (l' & Hhdr & Hfresh & Hext & _).
  rewrite Hhdr, Hreq. split.
  - intros [= ->]. lia.
  - unfold contents. by rewrite Hext.
Qed.

(** [HandleNotFound] of the second server: the response names the
    request's map, and the stores go to it. *)
Lemma rev_HandleNotFound_spec (w : World) (h : Heap) (res0 res : Response.t)
    (req : Request.t) (h' : Heap) :
  RevServer.HandleNotFound w h res0 req = Returns (res, h') →
  ∃ l,
    Request.Header req = Some l
    ∧ res = Response.mk 404 "HTTP/1.1" (Some l) None ""
    ∧ h' = (if Request.Close req
            then store (store h l "Date" (FormatTime w (Now w)))
                       l "Connection" "close"
            else store h l "Date" (FormatTime w (Now w))).
Proof.
  unfold RevServer.HandleNotFound, assign_or_panic.
  destruct (Request.Header req) as [l |]; cbn [outcome_bind]; [| discriminate].
  destruct (Request.Close req); cbn [outcome_bind];
    intros [= <- <-]; by exists l.
Qed.

(** In the second server a path that is not prefixed by the document root
    is answered 404 with no file, whatever the file system holds. *)
Theorem rev_HandleGoodRequest_outside_root (w : World) (s : Server)
    (h : Heap) (req : Request.t) :
  HasPrefix (Filepath.Clean (DocRoot s +:+ Request.URL (expanded req)))
            (DocRoot s) = false →
  RevServer.HandleGoodRequest w s h req
  = '(res, h') ← RevServer.HandleNotFound w h Response.zero (expanded req) ;;;
    Returns (res, expanded req, h').
Proof.
  intros Hout. unfold RevServer.HandleGoodRequest. fold (expanded req).
  destruct (decide (Request.URL (expanded req) = "")); [reflexivity |].
  by rewrite bool_decide_eq_true_2.
Qed.

(** So the response, when there is one, is a 404 without a file. *)
Corollary rev_HandleGoodRequest_outside_root_404 (w : World) (s : Server)
    (h : Heap) (req : Request.t) (res : Response.t) (req' : Request.t)
    (h' : Heap) :
  HasPrefix (Filepath.Clean (DocRoot s +:+ Request.URL (expanded req)))
            (DocRoot s) = false →
  RevServer.HandleGoodRequest w s h req = Returns (res, req', h') →
  Response.StatusCode res = 404%Z ∧ Response.FilePath res = "".
Proof.
  intros Hout. rewrite rev_HandleGoodRequest_outside_root by done.
  destruct (RevServer.HandleNotFound w h Response.zero (expanded req))
    as [[r h1] |] eqn:Hnf; cbn [outcome_bind]; [| discriminate].
  intros [= <- <- <-].
  apply rev_HandleNotFound_spec in Hnf as (l & _ & -> & _). done.
Qed.

(** X13: for a request with a header map whose cleaned path is not
    prefixed by the document root, the second server does not panic: it
    returns the 404 response, with no file, and the request with the
    expanded URL. *)
Corollary rev_HandleGoodRequest_outside_root_returns (w : World) (s : Server)
    (h : Heap) (req : Request.t) (l : nat) :
  Request.Header req = Some l →
  HasPrefix (Filepath.Clean (DocRoot s +:+ Request.URL (expanded req)))
            (DocRoot s) = false →
  ∃ h',
    RevServer.HandleGoodRequest w s h req
    = Returns (Response.mk 404 "HTTP/1.1" (Some l) None "", expanded req, h').
Proof.
  intros Hl Hout. rewrite rev_HandleGoodRequest_outside_root by done.
  unfold RevServer.HandleNotFound, assign_or_panic.
  assert (Request.Header (expanded req) = Some l) as ->.
  { unfold expanded. by destruct (HasSuffix _ _). }
  cbn [outcome_bind].
  destruct (Request.Close (expanded req)); cbn [outcome_bind]; eauto.
Qed.

(** The empty body adds nothing to the bytes written. *)
Lemma string_app_nil_r (s : string) : s +:+ "" = s.
Proof.
  induction s as [| c s IH]; [reflexivity |].
  change (String c (s +:+ "") = String c s). by rewrite IH.
Qed.

(** The bytes of a 400 response. *)
Lemma Write_bad_request (w : World) (h : Heap) (l : nat) :
  contents h (Some l)
  = <["Connection" := "close"]> (<["Date" := FormatTime w (Now w)]> ∅) →
  Write w h (Response.mk 400 "HTTP/1.1" (Some l) None "")
  = (bad_request_bytes w, false).
Proof.
  intros Hc.
  unfold Write, WriteBody, WriteStatusLine, WriteSortedHeaders, index,
    bad_request_bytes.
  cbn [Response.Header Response.FilePath Response.StatusCode Response.Proto].
  rewrite Hc. generalize (FormatTime w (Now w)). intros date.
  replace (sorted_keys (<["Connection" := "close"]> (<["Date" := date]> ∅)))
    with ["Connection"; "Date"] by (vm_compute; reflexivity).
  cbn [foldr].
  rewrite lookup_insert_eq, lookup_insert_ne, lookup_insert_eq by done.
  destruct (decide ("" = "")) as [_ | Hne]; [| done].
  rewrite string_app_nil_r. reflexivity.
Qed.

(** In the second server a deadline that passes after bytes of a request
    were read is answered 400 before the connection is closed. *)
Theorem rev_serve_timeout_mid_request (w : World) (s : Server) (h : Heap)
    (br : Reader) :
  failure (Rev.ReadRequest h br) = Some (Read net_Timeout) →
  bytesReceived (Rev.ReadRequest h br) = true →
  RevServer.serve w s h br
  = Returns ([Sent (bad_request_bytes w); Closed], Return).
Proof.
  unfold RevServer.serve, failure, bytesReceived.
  destruct (Rev.ReadRequest h br) as [[[[req b] err] br'] h1].
  cbn [fst snd]. intros -> ->. cbn [is_EOF is_Timeout andb negb].
  destruct (HandleBadRequest w h1 Response.zero) as [res h2] eqn:Hbad.
  apply HandleBadRequest_spec in Hbad as (-> & _ & _ & Hc).
  cbn [Response.Header] in Hc.
  by rewrite (Write_bad_request w h2 _ Hc).
Qed.

(** ** Termination of the connection loops *)

Lemma pkg_read_headers_lines br : ∀ req header h oe req' br' h',
  Pkg.read_headers br req header h = (oe, req', br', h') →
  (lines_left br' ≤ lines_left br)%nat.
Proof.
  induction br as [line next IH | partial err]; intros req header h oe req' br' h';
    cbn [Pkg.read_headers lines_left]; [| by intros [= <- <- <- <-]].
  repeat case_match; try (intros [= <- <- <- <-]; lia);
    intros Hrec; apply IH in Hrec; lia.
Qed.

(** A successful parse reads at least the request line, so a turn that
    goes round again leaves fewer lines to read. *)
Lemma pkg_ReadRequest_consumes (h : Heap) (br : Reader) (req : Request.t)
    (b : bool) (err : option error) (br' : Reader) (h' : Heap) :
  Pkg.ReadRequest h br = ((Some req, b, err), br', h') →
  (lines_left br' < lines_left br)%nat.
Proof.
  unfold Pkg.ReadRequest.
  destruct br as [line next | partial e]; cbn [ReadLine lines_left];
    [| discriminate].
  repeat case_match; try discriminate;
    intros [= <- <- <- <- <-];
    match goal with H : Pkg.read_headers _ _ _ _ = _ |- _ =>
      apply pkg_read_headers_lines in H end; lia.
Qed.

Lemma pkg_serve_again (w : World) (s : Server) (h : Heap) (br : Reader)
    (evs : list event) (br' : Reader) (h' : Heap) :
  PkgServer.serve w s h br = Returns (evs, Again br' h') →
  (lines_left br' < lines_left br)%nat.
Proof.
  unfold PkgServer.serve.
  destruct (Pkg.ReadRequest h br) as [[[[req b] err] br1] h1] eqn:Hread.
  repeat case_match; try discriminate; subst;
    unfold outcome_bind; repeat case_match; try discriminate.
  intros [= <- <- <-]. by eapply pkg_ReadRequest_consumes.
Qed.

Lemma rev_serve_again (w : World) (s : Server) (h : Heap) (br : Reader)
    (evs : list event) (br' : Reader) (h' : Heap) :
  RevServer.serve w s h br = Returns (evs, Again br' h') →
  (lines_left br' < lines_left br)%nat.
Proof.
  unfold RevServer.serve.
  destruct (Rev.ReadRequest h br) as [[[[req b] err] br1] h1] eqn:Hread.
  repeat case_match; try discriminate; subst;
    unfold outcome_bind; repeat case_match; try discriminate.
  intros [= <- <- <-].
  apply rev_ReadRequest_reference in Hread as (? & ? & ? & ? & ? & ? & ? & ?
    & ? & ? & ? & ? & Hlt & ?). done.
Qed.

(** X26: [HandleConnection] of the server of [pkg/tritonhttp] comes to an
    end: it returns (or panics) within one turn of its loop per line left
    to read, plus one. *)
Theorem pkg_HandleConnection_terminates (w : World) (s : Server) :
  ∀ (fuel : nat) (h : Heap) (br : Reader),
    (lines_left br < fuel)%nat →
    is_Some (PkgServer.HandleConnection fuel w s h br).
Proof.
  induction fuel as [| fuel IH]; intros h br Hfuel; [lia |].
  cbn [PkgServer.HandleConnection].
  destruct (PkgServer.serve w s h br) as [[evs [| br' h']] | why] eqn:Hs;
    [eauto | | eauto].
  apply pkg_serve_again in Hs.
  destruct (IH h' br') as [[evs' | why] ->]; [lia | eauto | eauto].
Qed.

(** X25: [HandleConnection] of the second server comes to an end: it
    returns (or panics) within one turn of its loop per line left to read,
    plus one. *)
Theorem rev_HandleConnection_terminates (w : World) (s : Server) :
  ∀ (fuel : nat) (h : Heap) (br : Reader),
    (lines_left br < fuel)%nat →
    is_Some (RevServer.HandleConnection fuel w s h br).
Proof.
  induction fuel as [| fuel IH]; intros h br Hfuel; [lia |].
  cbn [RevServer.HandleConnection].
  destruct (RevServer.serve w s h br) as [[evs [| br' h']] | why] eqn:Hs;
    [eauto | | eauto].
  apply rev_serve_again in Hs.
  destruct (IH h' br') as [[evs' | why] ->]; [lia | eauto | eauto].
Qed.

(** ** More on the two servers *)

(** The headers of a 404 of the second server: the request's headers, a
    Date, and Connection: close when the request asked for it. *)
Theorem rev_HandleNotFound_headers (w : World) (h : Heap)
    (res0 res : Response.t) (req : Request.t) (h' : Heap) (l : nat) :
  Request.Header req = Some l → (l < List.length h)%nat →
  RevServer.HandleNotFound w h res0 req = Returns (res, h') →
  Response.Header res = Request.Header req
  ∧ contents h' (Request.Header req)
    = let m := <["Date" := FormatTime w (Now w)]>
                 (contents h (Request.Header req)) in
      if Request.Close req then <["Connection" := "close"]> m else m.
Proof.
  intros Hl Hvalid Hnf.
  apply rev_HandleNotFound_spec in Hnf as (l' & Hl' & -> & ->).
  rewrite Hl in Hl'. injection Hl' as <-. rewrite Hl.
  split; [reflexivity |]. cbv zeta.
  destruct (Request.Close req);
    by rewrite !contents_store by (rewrite ?length_store; lia).
Qed.

(** [HandleOK] of the second server builds the same response. *)
Lemma rev_HandleOK_spec (w : World) (h : Heap) (res0 res : Response.t)
    (req : Request.t) (path : string) (h' : Heap) :
  RevServer.HandleOK w h res0 req path = Returns (res, h') →
  ∃ fi rest,
    Stat w path = StatInfo fi
    ∧ SplitN path "." 2 = [(SplitN path "." 2 !!! 0%nat); rest]
    ∧ res = Response.mk 200 (Request.Proto req) (Some (List.length h))
                        (Some req) path
    ∧ List.length h' = S (List.length h)
    ∧ extends h h'
    ∧ contents h' (Response.Header res)
      = ok_headers w fi rest (Request.Close req).
Proof. exact (pkg_HandleOK_spec w h res0 res req path h'). Qed.

(** X14: every response of the second server to a parsed request carries
    a [Date] header. *)
Theorem rev_HandleGoodRequest_Date (w : World) (s : Server) (h : Heap)
    (req : Request.t) (res : Response.t) (req' : Request.t) (h' : Heap)
    (l : nat) :
  Request.Header req = Some l → (l < List.length h)%nat →
  RevServer.HandleGoodRequest w s h req = Returns (res, req', h') →
  is_Some (contents h' (Response.Header res) !! "Date").
Proof.
  intros Hl Hvalid. unfold RevServer.HandleGoodRequest. fold (expanded req).
  assert (Request.Header (expanded req) = Some l) as Hl'.
  { unfold expanded. by destruct (HasSuffix _ _). }
  assert (∀ r h1,
            RevServer.HandleNotFound w h Response.zero (expanded req)
            = Returns (r, h1) →
            is_Some (contents h1 (Response.Header r) !! "Date")) as Hnf.
  { intros r h1 Hr.
    apply (rev_HandleNotFound_headers _ _ _ _ _ _ l) in Hr as [-> ->];
      [| done | done].
    cbv zeta. destruct (Request.Close (expanded req));
      rewrite ?lookup_insert_ne by done; rewrite lookup_insert_eq; eauto. }
  assert (∀ r,
            ('(res, h') ← RevServer.HandleNotFound w h Response.zero
                           (expanded req) ;;;
             Returns (res, expanded req, h')) = Returns r →
            is_Some (contents r.2 (Response.Header r.1.1) !! "Date")) as Hnf'.
  { intros [[r rq] h1].
    destruct (RevServer.HandleNotFound w h Response.zero (expanded req))
      as [[r0 h0] |] eqn:E; cbn [outcome_bind]; [| discriminate].
    intros [= <- <- <-]. by apply Hnf. }
  repeat case_match; try discriminate;
    try (intros Hres; by apply Hnf' in Hres).
  destruct (RevServer.HandleOK w h Response.zero (expanded req) _)
    as [[r0 h0] |] eqn:E; cbn [outcome_bind]; [| discriminate].
  intros [= <- <- <-].
  apply rev_HandleOK_spec in E as (fi' & rest & _ & _ & -> & _ & _ & ->).
  unfold ok_headers. destruct (Request.Close (expanded req));
    rewrite ?lookup_insert_ne by done; rewrite lookup_insert_eq; eauto.
Qed.

(** In the server of [pkg/tritonhttp] no deadline that passes in the
    middle of a request is answered: the connection is closed and nothing
    is written. *)
Theorem pkg_serve_timeout_mid_request (w : World) (s : Server) (h : Heap)
    (br : Reader) :
  failure (Pkg.ReadRequest h br) = Some (Read net_Timeout) →
  bytesReceived (Pkg.ReadRequest h br) = true →
  PkgServer.serve w s h br = Returns ([Closed], Return).
Proof.
  unfold PkgServer.serve, failure, bytesReceived.
  destruct (Pkg.ReadRequest h br) as [[[[req b] err] br'] h1].
  cbn [fst snd]. intros -> ->. cbn [is_EOF is_Timeout andb negb].
  by destruct (HandleBadRequest w h1 Response.zero).
Qed.

(** X9: the parser of [pkg/tritonhttp/request.go] returns its named
    result [bytesReceived], which it never assigns, on every successful
    parse: a request comes back with [bytesReceived] false. *)
Theorem pkg_ReadRequest_success_bytesReceived (h : Heap) (br : Reader)
    (req : Request.t) :
  parsed (Pkg.ReadRequest h br) = Some req →
  bytesReceived (Pkg.ReadRequest h br) = false.
Proof.
  unfold Pkg.ReadRequest, parsed, bytesReceived.
  destruct br as [line next | partial e]; cbn [ReadLine]; [| discriminate].
  repeat case_match; cbn [fst snd]; try discriminate; reflexivity.
Qed.

(** ** The parsers against [request_test.go] *)

(** X7: the second parser passes every case of [TestReadGoodRequest],
    [TestReadBadRequest] and [TestReadMultipleRequests]. *)
Theorem rev_ReadRequest_passes_request_test :
  forallb (Tests.passes_good Rev.ReadRequest) Tests.good_requests = true
  ∧ forallb (Tests.passes_bad Rev.ReadRequest) Tests.bad_requests = true
  ∧ Tests.two_reads Rev.ReadRequest
      [Tests.get_index; "Host: test"; ""; Tests.get_index; "Host: test"; ""]
    = (Some (Tests.Want "GET" "/index.html" "HTTP/1.1" ∅ "test" false),
       Some (Tests.Want "GET" "/index.html" "HTTP/1.1" ∅ "test" false))
  ∧ Tests.two_reads Rev.ReadRequest
      [Tests.get_index; "Host: test"; "";
       "GETT /index.html HTTP/1.1"; "Host: test"; ""]
    = (Some (Tests.Want "GET" "/index.html" "HTTP/1.1" ∅ "test" false), None).
Proof. repeat split; vm_compute; reflexivity. Qed.

(** The parser of [pkg/tritonhttp/request.go] fails every case of
    [TestReadGoodRequest] (it keeps the space before the host, and the
    [Host] entry in the map) and the case WrongHeadersKey of
    [TestReadBadRequest] (it accepts any byte in a header name). *)
Theorem pkg_ReadRequest_fails_request_test :
  forallb (fun t => negb (Tests.passes_good Pkg.ReadRequest t))
          Tests.good_requests = true
  ∧ map (Tests.passes_bad Pkg.ReadRequest) Tests.bad_requests
    = [true; true; true; true; false; true].
Proof. split; vm_compute; reflexivity. Qed.

(** On a concrete input the first hypothesis of a theorem holds by
    evaluation: prove it, and keep it to apply the theorem. *)
Ltac first_hyp H :=
  lazymatch goal with
  | |- ?hyp ∧ _ => assert hyp as H by reflexivity; split; [exact H |]
  end.

(** ** Cutting strings *)

Lemma HasPrefix_skip (s p : string) :
  HasPrefix s p = true → s = p +:+ skip (String.length p) s.
Proof.
  revert s. induction p as [| c p IH]; intros s; [reflexivity |].
  destruct s as [| d s]; [discriminate |]. cbn [HasPrefix].
  destruct (Ascii.eqb d c) eqn:E; [| discriminate].
  apply Ascii.eqb_eq in E as ->. intros Hp.
  change (String c s = String c (p +:+ skip (String.length p) s)).
  f_equal. by apply IH.
Qed.

Lemma HasPrefix_app (a b p : string) :
  HasPrefix a p = true → HasPrefix (a +:+ b) p = true.
Proof.
  revert a. induction p as [| c p IH]; intros a;
    [by destruct (a +:+ b) |].
  destruct a as [| d a]; [discriminate |].
  change (String d a +:+ b) with (String d (a +:+ b)). cbn [HasPrefix].
  destruct (Ascii.eqb d c); [apply IH | discriminate].
Qed.

(** [Cut] splits at an instance of the separator, and at the first one:
    the part before it holds none. *)
Lemma Cut_Some (s sep before after : string) :
  Cut s sep = Some (before, after) →
  s = before +:+ sep +:+ after ∧ (sep ≠ "" → Cut before sep = None).
Proof.
  revert before after. induction s as [| c s IH]; intros before after.
  - cbn [Cut]. destruct (HasPrefix "" sep) eqn:Hp; [| discriminate].
    intros [= <- <-]. destruct sep; [| discriminate]. split; [reflexivity |].
    intros Hne. done.
  - cbn [Cut]. destruct (HasPrefix (String c s) sep) eqn:Hp.
    + intros [= <- <-]. split; [by apply HasPrefix_skip |].
      intros Hne. destruct sep; [done | reflexivity].
    + destruct (Cut s sep) as [[b a] |] eqn:Hcut; [| discriminate].
      intros [= <- <-]. destruct (IH b a eq_refl) as [Hs Hnone].
      split; [change (String c s = String c (b +:+ sep +:+ a)); by f_equal |].
      intros Hne. cbn [Cut].
      destruct (HasPrefix (String c b) sep) eqn:Hp'.
      * exfalso. apply (HasPrefix_app _ (sep +:+ a)) in Hp'.
        change (String c b +:+ sep +:+ a) with (String c (b +:+ sep +:+ a))
          in Hp'.
        rewrite <- Hs in Hp'. congruence.
      * by rewrite Hnone.
Qed.

Lemma Contains_false (s sep : string) : Contains s sep = false ↔ Cut s sep = None.
Proof. unfold Contains. destruct (Cut s sep); split; congruence. Qed.

(** [SplitN s sep 3] into three parts: [s] is the parts around the first
    two instances of the separator. *)
Lemma SplitN_3 (s sep a b c : string) :
  sep ≠ "" → SplitN s sep 3 = [a; b; c] →
  s = a +:+ sep +:+ b +:+ sep +:+ c
  ∧ Contains a sep = false ∧ Contains b sep = false.
Proof.
  intros Hne. cbn [SplitN].
  destruct (Cut s sep) as [[x y] |] eqn:Hcut; [| discriminate].
  destruct (Cut y sep) as [[x' y'] |] eqn:Hcut'; [| discriminate].
  intros [= <- <- <-].
  apply Cut_Some in Hcut as [Hs Hnone], Hcut' as [Hs' Hnone'].
  split; [by rewrite Hs, Hs' |].
  split; apply Contains_false; auto.
Qed.

(** ** What the second parser reads *)

(** After the blank line the header loop has read well-formed lines only,
    and leaves what follows the blank line. *)
Lemma rev_read_headers_block br : ∀ req fl header h req' fl' br' h',
  Rev.read_headers br req fl header h = (None, req', fl', br', h') →
  br' = after_blank br ∧ forallb header_line_ok (block_lines br) = true.
Proof.
  induction br as [line next IH | partial err];
    intros req fl header h req' fl' br' h';
    cbn [Rev.read_headers after_blank block_lines]; [| discriminate].
  destruct (decide (line = "")) as [-> | Hline];
    [by intros [= <- <- <- <-] |].
  cbn [forallb]. unfold header_line_ok at 1.
  destruct (SplitN line ":" 2) as [| h0 [| h1 [| ? ?]]] eqn:Hsplit;
    try discriminate.
  destruct (HasSuffix h0 " " || HasPrefix h0 " "); [discriminate |].
  destruct (TrimSpace_empty h0) eqn:Hempty; [discriminate |].
  destruct (negb (Rev.name_bytes h0)) eqn:Hname; [discriminate |].
  apply negb_false_iff in Hname.
  destruct (decide (CanonicalHeaderKey h0 = "Host")); intros Hrec;
    apply IH in Hrec as [-> ->]; (split; [done |]);
    rewrite Hname, !andb_true_r;
    apply negb_true_iff, bool_decide_eq_false_2; by intros ->.
Qed.

(** A successful parse, with the run of the header loop inside it. *)
Lemma rev_ReadRequest_success (h : Heap) (br : Reader) (req : Request.t)
    (b : bool) (err : option error) (br' : Reader) (h' : Heap) :
  Rev.ReadRequest h br = ((Some req, b, err), br', h') →
  ∃ line next target req0 fl0 req1 fl1 h1,
    br = Line line next
    ∧ SplitN line " " 3 = ["GET"; target; "HTTP/1.1"]
    ∧ HasPrefix target "/" = true
    ∧ Rev.read_headers next req0 fl0 (List.length h) (h ++ [∅])
      = (None, req1, fl1, br', h1).
Proof.
  unfold Rev.ReadRequest.
  destruct br as [line next | partial e]; cbn [ReadLine]; [| discriminate].
  destruct (SplitN line " " 3) as [| f0 [| f1 [| f2 [| ? ?]]]] eqn:Hsplit;
    try discriminate.
  destruct (negb (bool_decide (f0 = "GET"))) eqn:Hget; [discriminate |].
  apply negb_false_iff, bool_decide_eq_true_1 in Hget as ->.
  destruct (_ || _ || _); [discriminate |].
  destruct (_ || _ || _); [discriminate |].
  destruct (negb (HasPrefix f1 "/")) eqn:Hslash; [discriminate |].
  apply negb_false_iff in Hslash.
  destruct (negb (bool_decide (f2 = "HTTP/1.1"))) eqn:Hproto; [discriminate |].
  apply negb_false_iff, bool_decide_eq_true_1 in Hproto as ->.
  unfold make.
  match goal with |- context [Rev.read_headers next ?r ?f _ _] =>
    set (req0 := r); set (fl0 := f) end.
  destruct (Rev.read_headers next req0 fl0 (List.length h) (h ++ [∅]))
    as [[[[oe req1] fl1] br1] h1] eqn:Hloop.
  destruct oe as [e |]; [discriminate |].
  intros Hres. exists line, next, f1, req0, fl0, req1, fl1, h1.
  split; [done |]. split; [done |]. split; [done |].
  destruct (Rev.checkConn fl1), (Rev.checkHost fl1);
    try discriminate; by injection Hres as <- <- <- <- <-.
Qed.

(** With a later field overwriting an earlier one, a key of the map the
    fields are put onto is found among the fields first. *)
Lemma fields_onto_lookup (fs : list (string * string)) :
  ∀ (m : HeaderMap) (k : string),
    fields_onto m fs !! k
    = match fields_map fs !! k with Some v => Some v | None => m !! k end.
Proof.
  unfold fields_map.
  induction fs as [| [k' v'] fs IH]; intros m k.
  - cbn. by rewrite lookup_empty.
  - change (fields_onto m ((k', v') :: fs))
      with (fields_onto (<[k' := v']> m) fs).
    change (fields_onto ∅ ((k', v') :: fs))
      with (fields_onto (<[k' := v']> ∅) fs).
    rewrite (IH (<[k' := v']> m)), (IH (<[k' := v']> ∅)).
    destruct (fields_onto ∅ fs !! k) as [v |]; [done |].
    destruct (decide (k' = k)) as [-> | Hne].
    + by rewrite !lookup_insert_eq.
    + by rewrite !lookup_insert_ne, lookup_empty.
Qed.

(** ** The parser of [pkg/tritonhttp/request.go] *)

(** The header loop of [pkg/tritonhttp/request.go]: the map takes the raw
    fields, the host is the value of the last field spelled [Host], and
    the close flag goes up at a field [Connection:close] and stays up. *)
Lemma pkg_read_headers_spec br : ∀ req header h req' br' h',
  (header < List.length h)%nat →
  Pkg.read_headers br req header h = (None, req', br', h') →
  List.length h' = List.length h
  ∧ (∀ l, l ≠ header → h' !! l = h !! l)
  ∧ contents h' (Some header)
    = fields_onto (contents h (Some header)) (raw_fields br)
  ∧ Request.Host req'
    = default (Request.Host req) (fields_map (raw_fields br) !! "Host")
  ∧ Request.Close req'
    = Request.Close req || existsb asks_close (raw_fields br)
  ∧ Request.Method req' = Request.Method req
  ∧ Request.URL req' = Request.URL req
  ∧ Request.Proto req' = Request.Proto req
  ∧ Request.Header req' = Request.Header req
  ∧ br' = after_blank br.
Proof.
  induction br as [line next IH | partial err];
    intros req header h req' br' h' Hl;
    cbn [Pkg.read_headers raw_fields after_blank]; [| discriminate].
  destruct (decide (line = "")) as [-> | Hline].
  { intros [= <- <- <-]. cbn [existsb]. rewrite orb_false_r.
    unfold fields_map. cbn. rewrite lookup_empty. done. }
  destruct (SplitN line ":" 2) as [| h0 [| h1 [| ? ?]]] eqn:Hsplit;
    try discriminate.
  destruct (HasSuffix h0 " " || HasPrefix h0 " "); [discriminate |].
  destruct (TrimSpace_empty h0); [discriminate |].
  intros Hrec.
  apply IH in Hrec
    as (Hlen & Hother & Hc & Hhost & Hclose & HM & HU & HP & HH & Hbr);
    [| by rewrite length_store].
  rewrite length_store in Hlen. rewrite contents_store in Hc by done.
  split; [done |]. split.
  { intros l Hne. rewrite Hother by done. by apply lookup_store_ne. }
  split; [done |].
  assert (fields_map ((h0, h1) :: raw_fields next) !! "Host"
          = match fields_map (raw_fields next) !! "Host" with
            | Some v => Some v
            | None => if decide (h0 = "Host") then Some h1 else None
            end) as Hlook.
  { unfold fields_map at 1.
    change (fields_onto ∅ ((h0, h1) :: raw_fields next))
      with (fields_onto (<[h0 := h1]> ∅) (raw_fields next)).
    rewrite fields_onto_lookup.
    destruct (fields_map (raw_fields next) !! "Host"); [done |].
    destruct (decide (h0 = "Host")) as [-> | Hne].
    - by rewrite lookup_insert_eq.
    - by rewrite lookup_insert_ne, lookup_empty. }
  split.
  { rewrite Hhost, Hlook.
    destruct (fields_map (raw_fields next) !! "Host"); [done |].
    by destruct (decide (h0 = "Host")), (decide (h0 = "Connection" ∧ h1 = "close")). }
  split.
  { rewrite Hclose. cbn [existsb]. unfold asks_close at 2. cbn [fst snd].
    destruct (decide (h0 = "Host")),
      (decide (h0 = "Connection" ∧ h1 = "close")) as [Hc' | Hc'];
      cbn [Request.Close Request.set_Close Request.set_Host];
      rewrite ?(bool_decide_eq_true_2 _ Hc'), ?(bool_decide_eq_false_2 _ Hc');
      by rewrite ?orb_true_r, ?orb_true_l, ?orb_false_l, ?orb_assoc, ?orb_false_r. }
  rewrite HM, HU, HP, HH.
  by destruct (decide (h0 = "Host")), (decide (h0 = "Connection" ∧ h1 = "close")).
Qed.

(** X8: a request that [ReadRequest] of [pkg/tritonhttp/request.go]
    returns comes from a request line [GET target HTTP/1.1] whose target
    starts with a slash.  The URL is the target, with [index.html] added
    when it ends in a slash.  The header map, a new one, holds the fields
    as they were sent, cut at the first colon, but for the key
    [Connection]; the host is the raw value of the last field spelled
    [Host], or empty without one; the close flag says whether some field
    is exactly [Connection:close].  What follows the blank line is left to
    read, and the maps already in the heap are as they were. *)
Theorem pkg_ReadRequest_reference (h : Heap) (br : Reader) (req : Request.t)
    (b : bool) (err : option error) (br' : Reader) (h' : Heap) :
  Pkg.ReadRequest h br = ((Some req, b, err), br', h') →
  ∃ line next target,
    br = Line line next
    ∧ line = "GET " +:+ target +:+ " HTTP/1.1"
    ∧ HasPrefix target "/" = true
    ∧ Contains target " " = false
    ∧ err = None
    ∧ Request.Method req = "GET"
    ∧ Request.Proto req = "HTTP/1.1"
    ∧ Request.URL req
      = (if HasSuffix target "/" then target +:+ "index.html" else target)
    ∧ Request.Header req = Some (List.length h)
    ∧ contents h' (Request.Header req)
      = delete "Connection" (fields_map (raw_fields next))
    ∧ Request.Host req
      = default "" (fields_map (raw_fields next) !! "Host")
    ∧ Request.Close req = existsb asks_close (raw_fields next)
    ∧ br' = after_blank next
    ∧ extends h h'.
Proof.
  unfold Pkg.ReadRequest.
  destruct br as [line next | partial e]; cbn [ReadLine]; [| discriminate].
  destruct (SplitN line " " 3) as [| f0 [| f1 [| f2 [| ? ?]]]] eqn:Hsplit;
    try discriminate.
  destruct (negb (bool_decide (f0 = "GET"))) eqn:Hget; [discriminate |].
  apply negb_false_iff, bool_decide_eq_true_1 in Hget as ->.
  destruct (_ || _ || _); [discriminate |].
  destruct (_ || _ || _); [discriminate |].
  destruct (negb (HasPrefix f1 "/")) eqn:Hslash; [discriminate |].
  apply negb_false_iff in Hslash.
  destruct (negb (bool_decide (f2 = "HTTP/1.1"))) eqn:Hproto; [discriminate |].
  apply negb_false_iff, bool_decide_eq_true_1 in Hproto as ->.
  destruct (make h) as [header h0] eqn:Hmake.
  apply make_spec in Hmake as (-> & Hlen0 & Hempty & Hold).
  match goal with |- context [Pkg.read_headers next ?r _ _] =>
    set (req0 := r) end.
  destruct (Pkg.read_headers next req0 (List.length h) h0)
    as [[[oe req1] br1] h1] eqn:Hloop.
  destruct oe as [e |]; [discriminate |].
  apply pkg_read_headers_spec in Hloop
    as (Hlen & Hother & Hc & Hhost & Hclose & HM & HU & HP & HH & Hbr);
    [| lia].
  intros [= <- <- <- <- <-]. exists line, next, f1.
  apply SplitN_3 in Hsplit as (Hline & _ & Hnospace); [| done].
  cbn [Request.Method Request.URL Request.Proto Request.Header Request.Host
       Request.Close Request.set_Header].
  rewrite HM, HU, HP, Hhost, Hclose. cbn [Request.Host Request.Close req0
    Request.set_URL Request.set_Close Request.set_Proto Request.set_Method
    Request.zero Request.Method Request.URL Request.Proto orb].
  split_and!; try done.
  - pose proof (contents_delete_key h1 (List.length h) "Connection") as Hd.
    unfold delete_key in Hd. by rewrite Hd, Hc, Hempty.
  - intros l Hl.
    rewrite list_lookup_alter_ne by lia. rewrite Hother by lia. by apply Hold.
Qed.

Lemma pkg_ReadRequest_reference_witness :
  let req := Request.mk "GET" "/docs/index.html" "HTTP/1.1" (Some 0%nat) "a"
                        true in
  let rest := Line "rest" (Fail "" io_EOF) in
  ∃ h',
    Pkg.ReadRequest [] (Tests.reader ["GET /docs/ HTTP/1.1"; "Host:a";
                                     "Connection:close"; "X: 1"; ""; "rest"])
    = ((Some req, false, None), rest, h')
    ∧ contents h' (Request.Header req) !! "X" = Some " 1"
    ∧ contents h' (Request.Header req) !! "Connection" = None.
Proof.
  intros req rest. exists [ {[ "Host" := "a"; "X" := " 1" ]} ].
  first_hyp Hparse.
  destruct (pkg_ReadRequest_reference _ _ _ _ _ _ _ Hparse)
    as (line & next & target & Hbr & _ & _ & _ & _ & _ & _ & _ & _ & Hc & _).
  injection Hbr as <- <-.
  split; [exact (f_equal (lookup "X") Hc) |].
  exact (f_equal (lookup "Connection") Hc).
Defined.

(** X1: a request that the second [ReadRequest] returns comes from a
    request line that is its method, target and version with one space
    between them: the method is [GET], the version [HTTP/1.1], and the URL
    is the target, which starts with a slash and holds no space.  The
    parse reads up to the blank line and no further: what follows is left
    for the next request. *)
Theorem rev_ReadRequest_request_line (h : Heap) (br : Reader)
    (req : Request.t) (b : bool) (err : option error) (br' : Reader)
    (h' : Heap) :
  Rev.ReadRequest h br = ((Some req, b, err), br', h') →
  ∃ line next,
    br = Line line next
    ∧ line = Request.Method req +:+ " " +:+ Request.URL req +:+ " "
             +:+ Request.Proto req
    ∧ Request.Method req = "GET"
    ∧ Request.Proto req = "HTTP/1.1"
    ∧ HasPrefix (Request.URL req) "/" = true
    ∧ Contains (Request.URL req) " " = false
    ∧ br' = after_blank next.
Proof.
  intros Hparse.
  destruct (rev_ReadRequest_reference _ _ _ _ _ _ _ Hparse)
    as (line & next & target & -> & Hsplit & _ & _ & -> & -> & -> & _).
  destruct (rev_ReadRequest_success _ _ _ _ _ _ _ Hparse)
    as (line' & next' & target' & req0 & fl0 & req1 & fl1 & h1 & Hbr
        & Hsplit' & Hslash & Hloop).
  injection Hbr as <- <-. rewrite Hsplit in Hsplit'.
  injection Hsplit' as <-.
  apply rev_read_headers_block in Hloop as [-> _].
  apply SplitN_3 in Hsplit as (Hline & _ & Hnospace); [| done].
  exists line, next. by split_and!.
Qed.

Lemma rev_ReadRequest_request_line_witness :
  ∃ req br' h',
    Rev.ReadRequest [] (Tests.reader ["GET /a.html HTTP/1.1"; "Host: x"; "";
                                     "GET /b.html HTTP/1.1"])
    = ((Some req, true, None), br', h')
    ∧ Request.URL req = "/a.html"
    ∧ br' = Line "GET /b.html HTTP/1.1" (Fail "" io_EOF).
Proof.
  eexists _, _, _. first_hyp Hparse.
  destruct (rev_ReadRequest_request_line _ _ _ _ _ _ _ Hparse)
    as (line & next & Hbr & Hline & HM & HP & _ & _ & Hrest).
  injection Hbr as <- <-. split; [reflexivity | exact Hrest].
Defined.

(** X2: the headers of a request that the second [ReadRequest] returns
    are the reference parse of the header block: the host is the
    left-trimmed value of the last field whose canonical name is [Host],
    and there is one; the close flag says whether the last [Connection]
    field has the left-trimmed value [close]; the header map is a new map,
    that of the fields under their canonical names, a later one
    overwriting an earlier one, without [Host] and [Connection]; the maps
    already in the heap are as they were. *)
Theorem rev_ReadRequest_headers (h : Heap) (br : Reader) (req : Request.t)
    (b : bool) (err : option error) (br' : Reader) (h' : Heap) :
  Rev.ReadRequest h br = ((Some req, b, err), br', h') →
  ∃ line next,
    br = Line line next
    ∧ fields_map (header_fields next) !! "Host" = Some (Request.Host req)
    ∧ Request.Close req
      = bool_decide (fields_map (header_fields next) !! "Connection"
                     = Some "close")
    ∧ Request.Header req = Some (List.length h)
    ∧ contents h' (Request.Header req)
      = delete "Host" (delete "Connection" (fields_map (header_fields next)))
    ∧ extends h h'.
Proof.
  intros Hparse.
  destruct (rev_ReadRequest_reference _ _ _ _ _ _ _ Hparse)
    as (line & next & target & -> & _ & _ & _ & _ & _ & _ & Hhdr & Hold & _
        & Hhost & Hclose & Hc).
  exists line, next. by split_and!.
Qed.

Lemma rev_ReadRequest_headers_witness :
  ∃ req br' h',
    Rev.ReadRequest [] (Tests.reader ["GET / HTTP/1.1"; "host: a";
                                     "HOST:   b"; "connection: close";
                                     "Connection: keep"; "x-y: 1"; ""])
    = ((Some req, true, None), br', h')
    ∧ Request.Host req = "b"
    ∧ Request.Close req = false
    ∧ contents h' (Request.Header req) = {[ "X-Y" := "1" ]}.
Proof.
  eexists _, _, _. first_hyp Hparse.
  destruct (rev_ReadRequest_headers _ _ _ _ _ _ _ Hparse)
    as (line & next & Hbr & Hhost & Hclose & _ & Hc & _).
  injection Hbr as <- <-.
  split; [| split; [exact Hclose | exact Hc]].
  apply (inj Some). rewrite <- Hhost. reflexivity.
Defined.

(** X3: the second [ReadRequest] returns a request only when every line
    of the header block has a colon and, before its first colon, a name
    that is not empty and is made of digits, letters and hyphens. *)
Theorem rev_ReadRequest_header_lines (h : Heap) (br : Reader)
    (req : Request.t) (b : bool) (err : option error) (br' : Reader)
    (h' : Heap) :
  Rev.ReadRequest h br = ((Some req, b, err), br', h') →
  ∃ line next,
    br = Line line next
    ∧ forallb header_line_ok (block_lines next) = true.
Proof.
  intros Hparse.
  destruct (rev_ReadRequest_success _ _ _ _ _ _ _ Hparse)
    as (line & next & target & req0 & fl0 & req1 & fl1 & h1 & -> & _ & _
        & Hloop).
  apply rev_read_headers_block in Hloop as [_ Hok]. by exists line, next.
Qed.

Lemma rev_ReadRequest_header_lines_witness :
  ∃ req br' h',
    Rev.ReadRequest [] (Tests.reader ["GET / HTTP/1.1"; "Host: a:b"; ""])
    = ((Some req, true, None), br', h')
    ∧ header_line_ok "Host: a:b" = true.
Proof.
  eexists _, _, _. first_hyp Hparse.
  destruct (rev_ReadRequest_header_lines _ _ _ _ _ _ _ Hparse)
    as (line & next & Hbr & Hok).
  injection Hbr as <- <-. cbn [block_lines forallb] in Hok.
  by apply andb_true_iff in Hok as [Hok _].
Defined.

Lemma rev_ReadRequest_missing_Host_witness :
  failure (Rev.ReadRequest [] (Tests.reader ["GET / HTTP/1.1"; "X: 1"; ""]))
  = Some ErrMissingHost
  ∧ parsed (Rev.ReadRequest [] (Tests.reader ["GET / HTTP/1.1"; "X: 1"; ""]))
    = None.
Proof.
  first_hyp Hfail.
  exact (proj1 (rev_ReadRequest_missing_Host _ _ Hfail)).
Defined.

Lemma pkg_ReadRequest_success_bytesReceived_witness :
  parsed (Pkg.ReadRequest [] (Tests.reader ["GET / HTTP/1.1"; "Host: a"; ""]))
  = Some (Request.mk "GET" "/index.html" "HTTP/1.1" (Some 0%nat) " a" false)
  ∧ bytesReceived
      (Pkg.ReadRequest [] (Tests.reader ["GET / HTTP/1.1"; "Host: a"; ""]))
    = false.
Proof.
  first_hyp Hparse.
  exact (pkg_ReadRequest_success_bytesReceived _ _ _ Hparse).
Defined.

(** ** What the second parser accepts *)

Lemma name_bytes_rev_app (s acc : string) :
  Rev.name_bytes (String.rev_app s acc)
  = Rev.name_bytes s && Rev.name_bytes acc.
Proof.
  revert acc. induction s as [| c s IH]; intros acc; [reflexivity |].
  cbn [String.rev_app]. rewrite IH. cbn [Rev.name_bytes].
  destruct (Rev.name_byte c), (Rev.name_bytes s); reflexivity.
Qed.

Lemma name_bytes_rev (s : string) :
  Rev.name_bytes (String.rev s) = Rev.name_bytes s.
Proof.
  unfold String.rev. rewrite name_bytes_rev_app. apply andb_true_r.
Qed.

Lemma rev_app_not_empty (s acc : string) :
  acc ≠ "" → String.rev_app s acc ≠ "".
Proof.
  revert acc. induction s as [| c s IH]; intros acc Hacc; [done |].
  cbn [String.rev_app]. by apply IH.
Qed.

Lemma rev_not_empty (s : string) : s ≠ "" → String.rev s ≠ "".
Proof.
  destruct s as [| c s]; [done |]. intros _.
  unfold String.rev. cbn [String.rev_app]. by apply rev_app_not_empty.
Qed.

(** A name byte is not the first byte of a white-space rune. *)
Lemma name_byte_no_space_rune (c : ascii) (s : string) :
  Rev.name_byte c = true → strip_space_rune (String c s) = None.
Proof.
  destruct c as [[] [] [] [] [] [] [] []]; try discriminate; reflexivity.
Qed.

(** A name of name bytes passes the checks on spaces around it. *)
Lemma name_bytes_checks (name : string) :
  name ≠ "" → Rev.name_bytes name = true →
  HasSuffix name " " || HasPrefix name " " = false
  ∧ TrimSpace_empty name = false.
Proof.
  intros Hne Hname.
  assert (∀ s, s ≠ "" → Rev.name_bytes s = true → HasPrefix s " " = false)
    as Hprefix.
  { intros [| c s] Hs; [done |]. cbn [Rev.name_bytes HasPrefix].
    destruct (Ascii.eqb c " ") eqn:E; [| done].
    apply Ascii.eqb_eq in E as ->. discriminate. }
  split.
  - unfold HasSuffix. change (String.rev " ") with " ".
    rewrite (Hprefix (String.rev name)), (Hprefix name);
      by rewrite ?name_bytes_rev; try apply rev_not_empty.
  - destruct name as [| c s]; [done |].
    cbn [Rev.name_bytes] in Hname. apply andb_true_iff in Hname as [Hc _].
    unfold TrimSpace_empty. cbn [String.length TrimLeftSpace_fuel].
    by rewrite name_byte_no_space_rune.
Qed.

(** Over a block of well-formed lines that ends in a blank line the
    header loop runs to the blank line. *)
Lemma rev_read_headers_runs br : ∀ req fl header h,
  has_blank br = true →
  forallb header_line_ok (block_lines br) = true →
  ∃ req' fl' h',
    Rev.read_headers br req fl header h
    = (None, req', fl', after_blank br, h').
Proof.
  induction br as [line next IH | partial err]; intros req fl header h;
    cbn [Rev.read_headers has_blank block_lines after_blank];
    [| discriminate].
  destruct (decide (line = "")) as [-> | Hline]; [eauto |].
  cbn [forallb]. unfold header_line_ok at 1.
  destruct (SplitN line ":" 2) as [| h0 [| h1 [| ? ?]]] eqn:Hsplit;
    try (intros _; cbn [andb]; discriminate).
  intros Hblank [[Hne Hname]%andb_true_iff Hrest]%andb_true_iff.
  apply negb_true_iff, bool_decide_eq_false_1 in Hne.
  destruct (name_bytes_checks h0 Hne Hname) as [-> ->]. rewrite Hname.
  cbn [negb].
  destruct (decide (CanonicalHeaderKey h0 = "Host")); by apply IH.
Qed.

(** A one-byte separator is found where it was put. *)
Lemma Cut_app_space (a b : string) :
  Contains a " " = false → Cut (a +:+ " " +:+ b) " " = Some (a, b).
Proof.
  intros Hno%Contains_false. induction a as [| c a IH]; [by destruct b |].
  change (String c a +:+ " " +:+ b) with (String c (a +:+ " " +:+ b)).
  cbn [Cut] in Hno |- *. cbn [HasPrefix] in Hno |- *.
  destruct (Ascii.eqb c " "); [by destruct a |].
  destruct (Cut a " ") as [[x y] |]; [discriminate |]. by rewrite IH.
Qed.

(** X4: the second [ReadRequest] returns a request for every well-formed
    request: a request line [GET target HTTP/1.1] whose target starts with
    a slash and holds no space, followed by header lines that each have a
    non-empty name of digits, letters and hyphens before their first
    colon, a [Host] header among them, and the blank line.  It leaves what
    follows the blank line to be read. *)
Theorem rev_ReadRequest_accepts (h : Heap) (target : string) (next : Reader) :
  HasPrefix target "/" = true →
  Contains target " " = false →
  has_blank next = true →
  forallb header_line_ok (block_lines next) = true →
  is_Some (fields_map (header_fields next) !! "Host") →
  ∃ req h',
    Rev.ReadRequest h (Line ("GET " +:+ target +:+ " HTTP/1.1") next)
    = ((Some req, true, None), after_blank next, h').
Proof.
  intros Hslash Hnospace Hblank Hlines Hhost.
  unfold Rev.ReadRequest. cbn [ReadLine].
  assert (SplitN ("GET " +:+ target +:+ " HTTP/1.1") " " 3
          = ["GET"; target; "HTTP/1.1"]) as ->.
  { change ("GET " +:+ target +:+ " HTTP/1.1")
      with ("GET" +:+ " " +:+ (target +:+ " " +:+ "HTTP/1.1")).
    cbn [SplitN]. rewrite (Cut_app_space "GET") by reflexivity.
    by rewrite Cut_app_space. }
  rewrite Hslash, Hnospace.
  assert ((String.length target =? 0)%nat = false) as ->.
  { by destruct target. }
  rewrite !bool_decide_eq_true_2 by done.
  change (Contains "GET" " ") with false.
  change (Contains "HTTP/1.1" " ") with false.
  cbn [negb orb Nat.eqb String.length].
  destruct (make h) as [header h0] eqn:Hmake.
  pose proof Hmake as (-> & Hlen0 & Hempty & Hold)%make_spec.
  match goal with |- context [Rev.read_headers next ?r ?f _ _] =>
    set (req0 := r); set (fl0 := f) end.
  destruct (rev_read_headers_runs next req0 fl0 (List.length h) h0 Hblank
              Hlines) as (req1 & fl1 & h1 & Hloop).
  rewrite Hloop.
  apply rev_read_headers_spec in Hloop
    as (_ & _ & _ & _ & _ & Hok); [| lia].
  destruct (Hok eq_refl) as [Hc Hag]. rewrite Hempty in Hc, Hag.
  destruct (Hag (flags_agree_init req0)) as (_ & Hch & _).
  rewrite Hc in Hch. fold (fields_map (header_fields next)) in Hch.
  rewrite bool_decide_eq_true_2 in Hch by done.
  destruct (Rev.checkConn fl1); cbn zeta; rewrite Hch; eauto.
Qed.

Lemma rev_ReadRequest_accepts_witness :
  ∃ req h',
    Rev.ReadRequest [] (Line "GET /a/b.html HTTP/1.1"
                          (Tests.reader ["X-1: y"; "hOST:  h:1"; ""; "more"]))
    = ((Some req, true, None), Line "more" (Fail "" io_EOF), h').
Proof.
  exact (rev_ReadRequest_accepts [] "/a/b.html"
           (Tests.reader ["X-1: y"; "hOST:  h:1"; ""; "more"])
           eq_refl eq_refl eq_refl eq_refl (mk_is_Some _ _ eq_refl)).
Defined.

(** X6: both [ReadRequest] functions return a request or an error, never
    both and never neither. *)
Theorem ReadRequest_request_or_error (h : Heap) (br : Reader) :
  (is_Some (parsed (Rev.ReadRequest h br))
   ↔ failure (Rev.ReadRequest h br) = None)
  ∧ (is_Some (parsed (Pkg.ReadRequest h br))
     ↔ failure (Pkg.ReadRequest h br) = None).
Proof.
  unfold Rev.ReadRequest, Pkg.ReadRequest, parsed, failure.
  destruct br as [line next | partial e]; cbn [ReadLine].
  2:{ cbn. split; (split; [by intros [? [=]] | discriminate]). }
  split; repeat case_match; cbn [fst snd];
    (split; [first [by intros [? [=]] | done] | first [discriminate | eauto]]).
Qed.

(** ** The responses of the two servers *)


(** [SplitN path "." 2] has a second element when [path] holds a dot. *)
Lemma after_first_dot_Returns (path : string) :
  (∃ rest, after_first_dot path = Returns rest) ↔ Contains path "." = true.
Proof.
  unfold after_first_dot, Contains. cbn [SplitN].
  destruct (Cut path ".") as [[before after] |].
  - split; [done | eauto].
  - split; [by intros [? [=]] | discriminate].
Qed.

Lemma after_first_dot_SplitN (path rest : string) :
  SplitN path "." 2 = [(SplitN path "." 2 !!! 0%nat); rest] →
  after_first_dot path = Returns rest.
Proof. unfold after_first_dot. by intros ->. Qed.

Lemma expanded_fields (req : Request.t) :
  Request.Method (expanded req) = Request.Method req
  ∧ Request.Proto (expanded req) = Request.Proto req
  ∧ Request.Header (expanded req) = Request.Header req
  ∧ Request.Host (expanded req) = Request.Host req
  ∧ Request.Close (expanded req) = Request.Close req.
Proof. unfold expanded. by destruct (HasSuffix _ _). Qed.

(** X10: the response of the server of [pkg/tritonhttp] to a parsed
    request is decided by [os.Stat] on the cleaned join of the document
    root and the URL, and by nothing else: 200 with that path as the file
    to send and the headers of [HandleOK] when it is a file that is not a
    directory, 404 with no file, a [Date] and [Connection: close] when it
    does not exist or is a directory. *)
Theorem pkg_HandleGoodRequest_cases (w : World) (s : Server) (h : Heap)
    (req : Request.t) (res : Response.t) (h' : Heap) :
  PkgServer.HandleGoodRequest w s h req = Returns (res, h') →
  let path := Filepath.Clean (Filepath.Join [DocRoot s; Request.URL req]) in
  (∃ fi rest,
     Stat w path = StatInfo fi ∧ IsDir fi = false
     ∧ after_first_dot path = Returns rest
     ∧ res = Response.mk 200 (Request.Proto req) (Response.Header res)
                         (Some req) path
     ∧ contents h' (Response.Header res)
       = ok_headers w fi rest (Request.Close req))
  ∨ ((Stat w path = StatNotExist
      ∨ ∃ fi, Stat w path = StatInfo fi ∧ IsDir fi = true)
     ∧ res = Response.mk 404 "HTTP/1.1" (Response.Header res) None ""
     ∧ contents h' (Response.Header res)
       = <["Connection" := "close"]> (<["Date" := FormatTime w (Now w)]> ∅)).
Proof.
  intros Hres path. unfold PkgServer.HandleGoodRequest in Hres.
  fold path in Hres. revert Hres.
  destruct (if negb (HasPrefix path (DocRoot s))
            then PkgServer.HandleNotFound w h Response.zero req
            else (Response.zero, h)) as [res1 h1].
  assert (∀ r h2, PkgServer.HandleNotFound w h1 res1 req = (r, h2) →
          r = Response.mk 404 "HTTP/1.1" (Response.Header r) None ""
          ∧ contents h2 (Response.Header r)
            = <["Connection" := "close"]>
                (<["Date" := FormatTime w (Now w)]> ∅)) as Hnf.
  { intros r h2 Hr.
    by apply pkg_HandleNotFound_spec in Hr as (-> & _ & _ & Hc). }
  destruct (Stat w path) as [fi | |] eqn:Hstat; [| | discriminate].
  - destruct (IsDir fi) eqn:Hdir.
    + destruct (PkgServer.HandleNotFound w h1 res1 req) as [r h2] eqn:Hr.
      intros [= <- <-]. right. split; [eauto | by apply Hnf].
    + intros Hok. left. apply pkg_HandleOK_spec in Hok
        as (fi' & rest & Hstat' & Hsplit & -> & _ & _ & Hc).
      rewrite Hstat in Hstat'. injection Hstat' as <-.
      exists fi, rest. split; [done |]. split; [done |].
      split; [by apply after_first_dot_SplitN |]. done.
  - destruct (PkgServer.HandleNotFound w h1 res1 req) as [r h2] eqn:Hr.
    intros [= <- <-]. right. split; [eauto | by apply Hnf].
Qed.

Lemma pkg_HandleGoodRequest_cases_witness :
  let req := Request.mk "GET" "/index.html" "HTTP/1.1" None "test" true in
  ∃ res h',
    PkgServer.HandleGoodRequest Site.world Site.server [] req
    = Returns (res, h')
    ∧ Response.StatusCode res = 200%Z
    ∧ Response.FilePath res = "/srv/www/index.html"
    ∧ contents h' (Response.Header res) !! "Content-Length" = Some "12".
Proof.
  intros req. eexists _, _. first_hyp Hres.
  destruct (pkg_HandleGoodRequest_cases _ _ _ _ _ _ Hres)
    as [(fi & rest & Hstat & _ & _ & Hr & Hc)
        | ([Hstat | (fi & Hstat & Hdir)] & _)];
    [| discriminate Hstat | injection Hstat as <-; discriminate Hdir].
  injection Hstat as <-.
  split; [exact (f_equal Response.StatusCode Hr) |].
  split; [exact (f_equal Response.FilePath Hr) |].
  exact (f_equal (lookup "Content-Length") Hc).
Defined.



(** X15: [HandleOK], the same function in both servers, returns a
    response exactly when [os.Stat] gave a [FileInfo] for the path and the
    path holds a dot; it panics otherwise. *)
Theorem HandleOK_returns_iff (w : World) (h : Heap) (res0 : Response.t)
    (req : Request.t) (path : string) :
  ((∃ r, RevServer.HandleOK w h res0 req path = Returns r)
   ↔ (∃ fi, Stat w path = StatInfo fi) ∧ Contains path "." = true)
  ∧ ((∃ r, PkgServer.HandleOK w h res0 req path = Returns r)
     ↔ (∃ fi, Stat w path = StatInfo fi) ∧ Contains path "." = true).
Proof.
  assert ((∃ r, PkgServer.HandleOK w h res0 req path = Returns r)
          ↔ (∃ fi, Stat w path = StatInfo fi) ∧ Contains path "." = true)
    as Hiff; [| split; exact Hiff].
  rewrite <- after_first_dot_Returns.
  unfold PkgServer.HandleOK, file_info.
  destruct (make h) as [l h0].
  destruct (Stat w path) as [fi | |]; cbn [outcome_bind].
  - destruct (after_first_dot path) as [rest |]; cbn [outcome_bind].
    + split; [eauto | eauto].
    + split; [by intros [? [=]] | by intros [_ [? [=]]]].
  - split; [by intros [? [=]] | by intros [[? [=]] _]].
  - split; [by intros [? [=]] | by intros [[? [=]] _]].
Qed.

(** ** The bytes written *)






(** X19: [WriteSortedHeaders] writes one line for every key of the
    header map of the response, each key once, in the order of
    [sort.Strings], and then the blank line. *)
Theorem WriteSortedHeaders_sorted (h : Heap) (res : Response.t) :
  ∃ keys,
    Sorted String.le keys
    ∧ NoDup keys
    ∧ (∀ k, k ∈ keys ↔ is_Some (contents h (Response.Header res) !! k))
    ∧ WriteSortedHeaders h res
      = foldr (fun k out =>
                 k +:+ ": " +:+ index h (Response.Header res) k +:+ CRLF
                 +:+ out) CRLF keys.
Proof.
  exists (sorted_keys (contents h (Response.Header res))).
  unfold sorted_keys.
  split; [apply Sorted_merge_sort; apply _ |].
  split.
  { rewrite merge_sort_Permutation. apply NoDup_fst_map_to_list. }
  split; [| reflexivity].
  intros k. rewrite merge_sort_Permutation, list_elem_of_fmap. split.
  - intros [[k' v] [-> Hin%elem_of_map_to_list]]. eauto.
  - intros [v Hv]. exists (k, v). by rewrite elem_of_map_to_list.
Qed.

(** ** One turn of the connection loop *)

(** The second server hands back the request with the URL expanded, and
    its 200 carries the protocol of the request. *)
Lemma rev_HandleGoodRequest_shape (w : World) (s : Server) (h : Heap)
    (req : Request.t) (res : Response.t) (req' : Request.t) (h' : Heap) :
  RevServer.HandleGoodRequest w s h req = Returns (res, req', h') →
  req' = expanded req
  ∧ (Response.StatusCode res = 200%Z →
     Response.Proto res = Request.Proto req).
Proof.
  unfold RevServer.HandleGoodRequest. fold (expanded req).
  assert (∀ r,
            ('(res, h') ← RevServer.HandleNotFound w h Response.zero
                           (expanded req) ;;;
             Returns (res, expanded req, h')) = Returns r →
            r.1.2 = expanded req ∧ Response.StatusCode r.1.1 = 404%Z)
    as Hnf.
  { intros [[r rq] h1].
    destruct (RevServer.HandleNotFound w h Response.zero (expanded req))
      as [[r0 h0] |] eqn:E; cbn [outcome_bind]; [| discriminate].
    intros [= <- <- <-].
    by apply rev_HandleNotFound_spec in E as (l & _ & -> & _). }
  repeat case_match; try discriminate;
    try (intros Hr%Hnf; cbn [fst snd] in Hr; destruct Hr as [-> Hr];
         split; [done | by rewrite Hr]).
  destruct (RevServer.HandleOK w h Response.zero (expanded req) _)
    as [[r0 h0] |] eqn:E; cbn [outcome_bind]; [| discriminate].
  intros [= <- <- <-].
  apply rev_HandleOK_spec in E as (fi' & rest & _ & _ & -> & _).
  split; [done |]. intros _. apply expanded_fields.
Qed.

(** The events of one turn: at most one response, and the connection is
    closed exactly when the loop is left. *)
Lemma rev_serve_events (w : World) (s : Server) (h : Heap) (br : Reader)
    (evs : list event) (t : turn) :
  RevServer.serve w s h br = Returns (evs, t) →
  match t with
  | Return => evs = [Closed] ∨ ∃ data, evs = [Sent data; Closed]
  | Again _ _ => ∃ data, evs = [Sent data]
  end.
Proof.
  unfold RevServer.serve.
  destruct (Rev.ReadRequest h br) as [[[[req b] err] br1] h1].
  repeat case_match; try discriminate; subst;
    unfold outcome_bind; repeat case_match; try discriminate;
    intros ?; simplify_eq; eauto.
Qed.

Lemma pkg_serve_events (w : World) (s : Server) (h : Heap) (br : Reader)
    (evs : list event) (t : turn) :
  PkgServer.serve w s h br = Returns (evs, t) →
  match t with
  | Return => evs = [Closed] ∨ ∃ data, evs = [Sent data; Closed]
  | Again _ _ => ∃ data, evs = [Sent data]
  end.
Proof.
  unfold PkgServer.serve.
  destruct (Pkg.ReadRequest h br) as [[[[req b] err] br1] h1].
  repeat case_match; try discriminate; subst;
    unfold outcome_bind; repeat case_match; try discriminate;
    intros ?; simplify_eq; eauto.
Qed.

(** X20: what the second server does when [ReadRequest] fails.  At the
    end of the stream, and at a deadline that passes before any byte of a
    request was read, it closes the connection and writes nothing; at
    every other error (a deadline in the middle of a request, a transport
    error, a malformed request) it writes the 400 response and closes.  It
    never goes on reading after an error. *)
Theorem rev_serve_failure (w : World) (s : Server) (h : Heap) (br : Reader)
    (e : error) :
  failure (Rev.ReadRequest h br) = Some e →
  RevServer.serve w s h br
  = Returns (if bool_decide (e = Read io_EOF)
                || bool_decide (e = Read net_Timeout)
                   && negb (delivers_bytes br)
             then [Closed]
             else [Sent (bad_request_bytes w); Closed], Return).
Proof.
  rewrite <- (rev_ReadRequest_bytesReceived h br).
  unfold RevServer.serve, failure, bytesReceived.
  destruct (Rev.ReadRequest h br) as [[[[req b] err] br1] h1].
  cbn [fst snd]. intros ->.
  pose proof (HandleBadRequest_spec w h1 Response.zero) as Hbad.
  destruct (HandleBadRequest w h1 Response.zero) as [res h2].
  destruct (Hbad res h2 eq_refl) as (-> & _ & _ & Hc).
  cbn [Response.Header] in Hc. rewrite (Write_bad_request w h2 _ Hc).
  destruct e as [re | | | | | | | | | | |]; [destruct re | ..];
    destruct b, req; reflexivity.
Qed.

Lemma rev_serve_failure_witness :
  let br := Tests.reader ["GET /index.html HTTP/1.0"; "Host: test"; ""] in
  failure (Rev.ReadRequest [] br) = Some ErrProto
  ∧ RevServer.serve Site.world Site.server [] br
    = Returns ([Sent (bad_request_bytes Site.world); Closed], Return).
Proof.
  intros br. first_hyp Hfail.
  exact (rev_serve_failure Site.world Site.server [] br ErrProto Hfail).
Defined.

(** X21: what the server of [pkg/tritonhttp] does when [ReadRequest]
    fails.  At the end of the stream and at every deadline that passes,
    also in the middle of a request, it closes the connection and writes
    nothing; at every other error it writes the 400 response and
    closes. *)
Theorem pkg_serve_failure (w : World) (s : Server) (h : Heap) (br : Reader)
    (e : error) :
  failure (Pkg.ReadRequest h br) = Some e →
  PkgServer.serve w s h br
  = Returns (if bool_decide (e = Read io_EOF)
                || bool_decide (e = Read net_Timeout)
             then [Closed]
             else [Sent (bad_request_bytes w); Closed], Return).
Proof.
  unfold PkgServer.serve, failure.
  destruct (Pkg.ReadRequest h br) as [[[[req b] err] br1] h1].
  cbn [fst snd]. intros ->.
  pose proof (HandleBadRequest_spec w h1 Response.zero) as Hbad.
  destruct (HandleBadRequest w h1 Response.zero) as [res h2].
  destruct (Hbad res h2 eq_refl) as (-> & _ & _ & Hc).
  cbn [Response.Header] in Hc. rewrite (Write_bad_request w h2 _ Hc).
  destruct e as [re | | | | | | | | | | |]; [destruct re | ..];
    destruct b, req; reflexivity.
Qed.

Lemma pkg_serve_failure_witness :
  let br := Tests.reader ["GET /index.html HTTP/1.1"; "Host test"; ""] in
  failure (Pkg.ReadRequest [] br) = Some ErrHeaderFormat
  ∧ PkgServer.serve Site.world Site.server [] br
    = Returns ([Sent (bad_request_bytes Site.world); Closed], Return).
Proof.
  intros br. first_hyp Hfail.
  exact (pkg_serve_failure Site.world Site.server [] br ErrHeaderFormat
           Hfail).
Defined.

(** X22: the second server keeps a connection open after a turn of its
    loop only when a request was parsed that did not ask to close, and the
    response written was a 200; it then goes on with what follows the
    blank line of that request. *)
Theorem rev_serve_keep_alive (w : World) (s : Server) (h : Heap)
    (br : Reader) (evs : list event) (br' : Reader) (h' : Heap) :
  RevServer.serve w s h br = Returns (evs, Again br' h') →
  ∃ line next req data,
    br = Line line next
    ∧ parsed (Rev.ReadRequest h br) = Some req
    ∧ Request.Close req = false
    ∧ evs = [Sent data]
    ∧ HasPrefix data ("HTTP/1.1 200 OK" +:+ CRLF) = true
    ∧ br' = after_blank next.
Proof.
  unfold RevServer.serve, parsed.
  destruct (Rev.ReadRequest h br) as [[[[oreq b] err] br1] h1] eqn:Hread.
  destruct (is_EOF err); [discriminate |].
  destruct (is_Timeout err && negb b); [discriminate |].
  destruct (is_Timeout err && b).
  { destruct (HandleBadRequest w h1 Response.zero) as [r0 h0].
    destruct (Write w h0 r0). discriminate. }
  assert (∀ x : outcome (list event * turn),
            (let '(res, h) := HandleBadRequest w h1 Response.zero in
             let '(data, _) := Write w h res in
             Returns ([Sent data; Closed], Return)) = x →
            x ≠ Returns (evs, Again br' h')) as Hbad.
  { intros x <-. destruct (HandleBadRequest w h1 Response.zero) as [r0 h0].
    destruct (Write w h0 r0). discriminate. }
  destruct err as [e |]; [intros Hx; by apply Hbad in Hx |].
  destruct oreq as [req |]; [| intros Hx; by apply Hbad in Hx].
  clear Hbad.
  destruct (RevServer.HandleGoodRequest w s h1 req) as [[[res rq] h2] |]
    eqn:Hgood; cbn [outcome_bind]; [| discriminate].
  destruct (Write w h2 res) as [data flag] eqn:Hwrite.
  destruct (Request.Close rq
            || negb (bool_decide (Response.StatusCode res = 200%Z)))
    eqn:Hkeep; [discriminate |].
  intros [= <- <- <-].
  apply orb_false_iff in Hkeep as [Hclose Hstatus].
  apply negb_false_iff, bool_decide_eq_true_1 in Hstatus.
  apply rev_HandleGoodRequest_shape in Hgood as [-> Hproto].
  specialize (Hproto Hstatus).
  destruct (expanded_fields req) as (_ & _ & _ & _ & HC).
  rewrite HC in Hclose.
  pose proof Hread as (line & next & target & Hbr & _ & _ & _ & _ & _ & HP
                       & _)%rev_ReadRequest_reference.
  pose proof Hread as (line' & next' & target' & req0 & fl0 & req1 & fl1 & h3
                       & Hbr' & _ & _ & Hloop)%rev_ReadRequest_success.
  rewrite Hbr in Hbr'. injection Hbr' as <- <-.
  apply rev_read_headers_block in Hloop as [Hrest _].
  exists line, next, req, data. cbn [fst].
  split_and!; try done.
  assert (WriteStatusLine res = "HTTP/1.1 200 OK" +:+ CRLF) as Hline.
  { unfold WriteStatusLine. by rewrite Hproto, HP, Hstatus. }
  revert Hwrite. unfold Write. rewrite Hline.
  destruct (WriteBody w res); intros [= <- _];
    [apply HasPrefix_app |]; apply HasPrefix_app; reflexivity.
Qed.

Lemma rev_serve_keep_alive_witness :
  let br := Tests.reader ["GET /index.html HTTP/1.1"; "Host: test"; "";
                          "GET /next.html HTTP/1.1"] in
  ∃ evs br' h',
    RevServer.serve Site.world Site.server [] br
    = Returns (evs, Again br' h')
    ∧ br' = Line "GET /next.html HTTP/1.1" (Fail "" io_EOF).
Proof.
  intros br. eexists _, _, _. first_hyp Hturn.
  destruct (rev_serve_keep_alive _ _ _ _ _ _ _ Hturn)
    as (line & next & req & data & Hbr & _ & _ & _ & _ & Hrest).
  injection Hbr as <- <-. exact Hrest.
Defined.

(** ** The whole connection *)

(** X23: on a connection that the second server handles to the end
    without a panic, it writes responses and then closes the connection:
    the connection is closed once, as the last thing done, and nothing is
    written after it. *)
Theorem rev_HandleConnection_trace (w : World) (s : Server) (fuel : nat) :
  ∀ (h : Heap) (br : Reader) (evs : list event),
    RevServer.HandleConnection fuel w s h br = Some (Returns evs) →
    ∃ sent, evs = (map Sent sent ++ [Closed])%list.
Proof.
  induction fuel as [| fuel IH]; intros h br evs; [discriminate |].
  cbn [RevServer.HandleConnection].
  destruct (RevServer.serve w s h br) as [[evs0 [| br' h']] | why] eqn:Hs;
    [| | discriminate]; apply rev_serve_events in Hs.
  - intros [= <-]. destruct Hs as [-> | [data ->]];
      [by exists [] | by exists [data]].
  - destruct Hs as [data ->].
    destruct (RevServer.HandleConnection fuel w s h' br')
      as [[evs' | why] |] eqn:Hrec; try discriminate.
    intros [= <-]. apply IH in Hrec as [sent ->]. by exists (data :: sent).
Qed.

Lemma rev_HandleConnection_trace_witness :
  let br := Tests.reader ["GET /index.html HTTP/1.1"; "Host: test"; "";
                          "GET /none.html HTTP/1.1"; "Host: test"; ""] in
  ∃ evs,
    RevServer.HandleConnection 2 Site.world Site.server [] br
    = Some (Returns evs)
    ∧ List.length evs = 3%nat
    ∧ last evs = Some Closed.
Proof.
  intros br. eexists. first_hyp Hrun.
  destruct (rev_HandleConnection_trace _ _ _ _ _ _ Hrun) as [sent Hevs].
  split; [reflexivity |]. rewrite Hevs. apply last_snoc.
Defined.

(** X24: on a connection that the server of [pkg/tritonhttp] handles to
    the end without a panic, it writes responses and then closes the
    connection: the connection is closed once, as the last thing done, and
    nothing is written after it. *)
Theorem pkg_HandleConnection_trace (w : World) (s : Server) (fuel : nat) :
  ∀ (h : Heap) (br : Reader) (evs : list event),
    PkgServer.HandleConnection fuel w s h br = Some (Returns evs) →
    ∃ sent, evs = (map Sent sent ++ [Closed])%list.
Proof.
  induction fuel as [| fuel IH]; intros h br evs; [discriminate |].
  cbn [PkgServer.HandleConnection].
  destruct (PkgServer.serve w s h br) as [[evs0 [| br' h']] | why] eqn:Hs;
    [| | discriminate]; apply pkg_serve_events in Hs.
  - intros [= <-]. destruct Hs as [-> | [data ->]];
      [by exists [] | by exists [data]].
  - destruct Hs as [data ->].
    destruct (PkgServer.HandleConnection fuel w s h' br')
      as [[evs' | why] |] eqn:Hrec; try discriminate.
    intros [= <-]. apply IH in Hrec as [sent ->]. by exists (data :: sent).
Qed.

Lemma pkg_HandleConnection_trace_witness :
  let br := Tests.reader ["GET /index.html HTTP/1.1"; "Host: test"; "";
                          "GET /none.html HTTP/1.1"; "Host: test"; ""] in
  ∃ evs,
    PkgServer.HandleConnection 2 Site.world Site.server [] br
    = Some (Returns evs)
    ∧ List.length evs = 3%nat
    ∧ last evs = Some Closed.
Proof.
  intros br. eexists. first_hyp Hrun.
  destruct (pkg_HandleConnection_trace _ _ _ _ _ _ Hrun) as [sent Hevs].
  split; [reflexivity |]. rewrite Hevs. apply last_snoc.
Defined.

(** ** The earlier properties, on concrete inputs *)

Lemma rev_HandleConnection_terminates_witness :
  let br := Tests.reader ["GET /index.html HTTP/1.1"; "Host: test"; "";
                          "GET /index.html HTTP/1.1"; "Host: test"; ""] in
  (lines_left br < 7)%nat
  ∧ is_Some (RevServer.HandleConnection 7 Site.world Site.server [] br).
Proof.
  intros br.
  assert (lines_left br < 7)%nat as Hfuel by (vm_compute; lia).
  split; [exact Hfuel |].
  exact (rev_HandleConnection_terminates Site.world Site.server 7 [] br Hfuel).
Defined.

Lemma pkg_HandleConnection_terminates_witness :
  let br := Tests.reader ["GET /index.html HTTP/1.1"; "Host: test"; "";
                          "GET /index.html HTTP/1.1"; "Host: test"; ""] in
  (lines_left br < 7)%nat
  ∧ is_Some (PkgServer.HandleConnection 7 Site.world Site.server [] br).
Proof.
  intros br.
  assert (lines_left br < 7)%nat as Hfuel by (vm_compute; lia).
  split; [exact Hfuel |].
  exact (pkg_HandleConnection_terminates Site.world Site.server 7 [] br Hfuel).
Defined.

Lemma pkg_HandleGoodRequest_fresh_map_witness :
  let req := Request.mk "GET" "/none.html" "HTTP/1.1" (Some 0%nat) "test"
                        false in
  let h := [{[ "Accept" := "text/html" ]}] in
  ∃ res h',
    PkgServer.HandleGoodRequest Site.world Site.server h req
    = Returns (res, h')
    ∧ Response.Header res ≠ Request.Header req
    ∧ contents h' (Request.Header req) = {[ "Accept" := "text/html" ]}.
Proof.
  intros req h. eexists _, _. first_hyp Hres.
  exact (pkg_HandleGoodRequest_fresh_map Site.world Site.server h req _ _
           0%nat eq_refl (le_n 1) Hres).
Defined.

Lemma rev_HandleGoodRequest_outside_root_returns_witness :
  let req := Request.mk "GET" "/../secret.txt" "HTTP/1.1" (Some 0%nat) "test"
                        false in
  HasPrefix (Filepath.Clean (DocRoot Site.server +:+ Request.URL (expanded req)))
            (DocRoot Site.server) = false
  ∧ ∃ h',
      RevServer.HandleGoodRequest Site.world Site.server [∅] req
      = Returns (Response.mk 404 "HTTP/1.1" (Some 0%nat) None "",
                 expanded req, h').
Proof.
  intros req. first_hyp Hout.
  exact (rev_HandleGoodRequest_outside_root_returns Site.world Site.server
           [∅] req 0%nat eq_refl Hout).
Defined.

Lemma rev_HandleGoodRequest_Date_witness :
  let req := Request.mk "GET" "/index.html" "HTTP/1.1" (Some 0%nat) "test"
                        false in
  ∃ res req' h',
    RevServer.HandleGoodRequest Site.world Site.server [∅] req
    = Returns (res, req', h')
    ∧ is_Some (contents h' (Response.Header res) !! "Date").
Proof.
  intros req. eexists _, _, _. first_hyp Hres.
  exact (rev_HandleGoodRequest_Date Site.world Site.server [∅] req _ _ _
           0%nat eq_refl (le_n 1) Hres).
Defined.

(** ** The claims, on the code *)

(** C1: a target whose cleaned join with the document root is not prefixed
    by the document root must be answered 404, never 200.  The server of
    [pkg/tritonhttp] calls [HandleNotFound] for such a target and goes on:
    [GET /../secret.txt] on the root [/srv/www] is cleaned to
    [/srv/secret.txt], which exists, and [HandleOK] answers 200 with that
    file.  The second server returns its 404 at the same request. *)
Theorem pkg_HandleGoodRequest_serves_outside_root :
  ∃ req br h res h',
    Pkg.ReadRequest [] (NewReader (Site.get "/../secret.txt" []) io_EOF)
      = ((Some req, false, None), br, h)
    ∧ HasPrefix
        (Filepath.Clean (Filepath.Join [DocRoot Site.server; Request.URL req]))
        (Filepath.Clean (DocRoot Site.server)) = false
    ∧ PkgServer.HandleGoodRequest Site.world Site.server h req
      = Returns (res, h')
    ∧ Response.StatusCode res = 200%Z
    ∧ Response.FilePath res = "/srv/secret.txt"
    ∧ ∃ req2 br2 h2 res2 req2' h2',
        Rev.ReadRequest [] (NewReader (Site.get "/../secret.txt" []) io_EOF)
          = ((Some req2, true, None), br2, h2)
        ∧ RevServer.HandleGoodRequest Site.world Site.server h2 req2
          = Returns (res2, req2', h2')
        ∧ Response.StatusCode res2 = 404%Z.
Proof.
  eexists _, _, _, _, _.
  split; [reflexivity |].
  split; [reflexivity |].
  split; [reflexivity |].
  split; [reflexivity |].
  split; [reflexivity |].
  eexists _, _, _, _, _, _.
  split; [reflexivity |].
  split; [reflexivity | reflexivity].
Qed.

(** C2: every response that is not a 200 must carry [Connection: close],
    a 404 whatever the request's close flag.  [HandleNotFound] of the
    second server sets the header only when the request asked to close:
    [GET /missing.html] without a [Connection] header is answered 404 with
    a [Date] header and no [Connection] header.  The server of
    [pkg/tritonhttp] sets it. *)
Theorem rev_not_found_without_connection_close :
  ∃ req br h res req' h',
    Rev.ReadRequest [] (NewReader (Site.get "/missing.html" []) io_EOF)
      = ((Some req, true, None), br, h)
    ∧ Request.Close req = false
    ∧ RevServer.HandleGoodRequest Site.world Site.server h req
      = Returns (res, req', h')
    ∧ Response.StatusCode res = 404%Z
    ∧ is_Some (contents h' (Response.Header res) !! "Date")
    ∧ contents h' (Response.Header res) !! "Connection" = None
    ∧ ∃ preq pbr ph pres ph',
        Pkg.ReadRequest [] (NewReader (Site.get "/missing.html" []) io_EOF)
          = ((Some preq, false, None), pbr, ph)
        ∧ PkgServer.HandleGoodRequest Site.world Site.server ph preq
          = Returns (pres, ph')
        ∧ Response.StatusCode pres = 404%Z
        ∧ contents ph' (Response.Header pres) !! "Connection" = Some "close".
Proof.
  eexists _, _, _, _, _, _.
  split; [reflexivity |].
  split; [reflexivity |].
  split; [reflexivity |].
  split; [reflexivity |].
  split; [eexists; reflexivity |].
  split; [reflexivity |].
  eexists _, _, _, _, _.
  split; [reflexivity |].
  split; [reflexivity |].
  split; [reflexivity | reflexivity].
Qed.

(** C3: when the deadline passes after part of a request was read, a 400
    must be written before the connection is closed.  The server of
    [pkg/tritonhttp] builds the 400 and closes without writing it; the
    second server writes it. *)
Theorem pkg_timeout_mid_request_closes_silently :
  let sent := "GET /index.html HTTP/1.1" +:+ CRLF +:+ "Host: te" in
  let bad_request :=
    "HTTP/1.1 400 Bad Request" +:+ CRLF +:+ "Connection: close" +:+ CRLF
    +:+ "Date: t2000" +:+ CRLF +:+ CRLF in
  (Pkg.ReadRequest [] (NewReader sent net_Timeout)).1.1
    = (None, true, Some (Read net_Timeout))
  ∧ PkgServer.serve Site.world Site.server [] (NewReader sent net_Timeout)
    = Returns ([Closed], Return)
  ∧ PkgServer.HandleConnection 1 Site.world Site.server []
      (NewReader sent net_Timeout) = Some (Returns [Closed])
  ∧ RevServer.HandleConnection 1 Site.world Site.server []
      (NewReader sent net_Timeout)
    = Some (Returns [Sent bad_request; Closed]).
Proof. cbv zeta. repeat split; reflexivity. Qed.

(** C4: the parser must store the target as the client sent it.
    [ReadRequest] of [pkg/tritonhttp/request.go] appends [index.html] to a
    target that ends in a slash: [GET /] is stored as [/index.html], where
    [request_test.go] (DontExpandSlashHere) expects [/].  The second
    parser stores [/]. *)
Theorem pkg_ReadRequest_expands_slash :
  ∃ req br h rreq rbr rh,
    Pkg.ReadRequest [] (NewReader (Site.get "/" []) io_EOF)
      = ((Some req, false, None), br, h)
    ∧ Request.URL req = "/index.html"
    ∧ Rev.ReadRequest [] (NewReader (Site.get "/" []) io_EOF)
      = ((Some rreq, true, None), rbr, rh)
    ∧ Request.URL rreq = "/".
Proof.
  eexists _, _, _, _, _, _.
  split; [reflexivity |].
  split; [reflexivity |].
  split; [reflexivity | reflexivity].
Qed.

(** C5: the header map of a parsed request must hold neither [Host] nor
    [Connection].  [ReadRequest] of [pkg/tritonhttp/request.go] deletes
    [Connection] only: after the Basic request of [request_test.go] the
    map still holds [Host], where the test expects an empty map.  The
    second parser leaves the map empty. *)
Theorem pkg_ReadRequest_keeps_Host_in_map :
  ∃ req br h rreq rbr rh,
    Pkg.ReadRequest [] (NewReader (Site.get "/index.html" []) io_EOF)
      = ((Some req, false, None), br, h)
    ∧ contents h (Request.Header req) !! "Host" = Some " test"
    ∧ Rev.ReadRequest [] (NewReader (Site.get "/index.html" []) io_EOF)
      = ((Some rreq, true, None), rbr, rh)
    ∧ contents rh (Request.Header rreq) = ∅.
Proof.
  eexists _, _, _, _, _, _.
  split; [reflexivity |].
  split; [reflexivity |].
  split; [reflexivity | reflexivity].
Qed.

(** C6: a header block that ends without a [Host] header must fail the
    parse.  [ReadRequest] of [pkg/tritonhttp/request.go] never tests for
    it: a request line followed by the blank line is a successful parse
    with an empty host.  The second parser returns the missing-host
    error. *)
Theorem pkg_ReadRequest_accepts_missing_Host :
  let sent := "GET /index.html HTTP/1.1" +:+ CRLF +:+ CRLF in
  ∃ req br h,
    Pkg.ReadRequest [] (NewReader sent io_EOF) = ((Some req, false, None), br, h)
    ∧ Request.Host req = ""
    ∧ (Rev.ReadRequest [] (NewReader sent io_EOF)).1.1
      = (None, true, Some ErrMissingHost).
Proof.
  eexists _, _, _.
  split; [reflexivity |].
  split; [reflexivity | reflexivity].
Qed.

(** C7: the close flag must be set when the left-trimmed value of the
    [Connection] header is [close].  [ReadRequest] of
    [pkg/tritonhttp/request.go] compares the untrimmed value of a header
    spelled [Connection]: after [Connection: close] the flag is false,
    where [request_test.go] (Close) expects true.  The second parser sets
    it. *)
Theorem pkg_ReadRequest_misses_Connection_close :
  let sent := Site.get "/index.html" ["Connection: close"] in
  ∃ req br h rreq rbr rh,
    Pkg.ReadRequest [] (NewReader sent io_EOF) = ((Some req, false, None), br, h)
    ∧ Request.Close req = false
    ∧ Rev.ReadRequest [] (NewReader sent io_EOF)
      = ((Some rreq, true, None), rbr, rh)
    ∧ Request.Close rreq = true
    ∧ contents rh (Request.Header rreq) !! "Connection" = None.
Proof.
  eexists _, _, _, _, _, _.
  split; [reflexivity |].
  split; [reflexivity |].
  split; [reflexivity |].
  split; [reflexivity | reflexivity].
Qed.

(** C8, as stated: [bytesReceived] is true exactly when a line was read in
    the cycle.  It is not: a read that fails after the first bytes of the
    request line returns no line, and both parsers answer true, as the
    comment of [ReadRequest] asks ("whether or not some bytes are received
    before the error occurs"). *)
Lemma bytesReceived_true_without_a_line :
  delivers_line (Fail "GE" net_Timeout) = false
  ∧ bytesReceived (Rev.ReadRequest [] (Fail "GE" net_Timeout)) = true
  ∧ bytesReceived (Pkg.ReadRequest [] (Fail "GE" net_Timeout)) = true
  ∧ ¬ (∀ h br, bytesReceived (Rev.ReadRequest h br) = delivers_line br).
Proof.
  split; [reflexivity |].
  split; [reflexivity |].
  split; [reflexivity |].
  intros H. specialize (H [] (Fail "GE" net_Timeout)). discriminate H.
Qed.

(** C8, amended: when the parse fails, [bytesReceived] is true exactly
    when bytes were read in the cycle, a whole line or the beginning of
    one.  So it is true when a read fails after the request line, and
    false when the first read fails with nothing read.  This holds for
    both parsers. *)
Theorem ReadRequest_failure_bytesReceived :
  ∀ (ReadRequest : Heap → Reader → ReadResult) (h : Heap) (br : Reader),
    ReadRequest ∈ [Pkg.ReadRequest; Rev.ReadRequest] →
    failure (ReadRequest h br) ≠ None →
    bytesReceived (ReadRequest h br) = delivers_bytes br.
Proof.
  intros ReadRequest h br Hin Hfail.
  apply elem_of_cons in Hin as [-> | Hin];
    [| apply list_elem_of_singleton in Hin as ->].
  - revert Hfail. unfold Pkg.ReadRequest, failure, bytesReceived.
    destruct br as [line next | partial err]; simpl; [| reflexivity].
    repeat case_match; simpl; congruence.
  - revert Hfail. unfold Rev.ReadRequest, failure, bytesReceived.
    destruct br as [line next | partial err]; simpl; [| reflexivity].
    repeat case_match; simpl; congruence.
Qed.

Lemma ReadRequest_failure_bytesReceived_witness :
  let br := NewReader ("GET / HTTP/1.1" +:+ CRLF +:+ "Host: te") net_Timeout in
  Pkg.ReadRequest ∈ [Pkg.ReadRequest; Rev.ReadRequest]
  ∧ failure (Pkg.ReadRequest [] br) ≠ None
  ∧ bytesReceived (Pkg.ReadRequest [] br) = true.
Proof.
  intros br.
  split; [apply list_elem_of_here |].
  split; [vm_compute; discriminate |].
  apply (ReadRequest_failure_bytesReceived Pkg.ReadRequest [] br).
  - apply list_elem_of_here.
  - vm_compute. discriminate.
Defined.

(** C9: building a response must leave the request's header map alone and
    give the response a map of its own.  [HandleNotFound] of the second
    server assigns the request's map to the response and writes [Date]
    into it: after the 404 for [GET /missing.html] the request's map holds
    a [Date] key next to the header the client sent, and the response
    names the same map.  The server of [pkg/tritonhttp] makes a new
    map. *)
Theorem rev_not_found_writes_into_request_map :
  let sent := Site.get "/missing.html" ["Accept: text/html"] in
  ∃ req br h res req' h',
    Rev.ReadRequest [] (NewReader sent io_EOF) = ((Some req, true, None), br, h)
    ∧ RevServer.HandleGoodRequest Site.world Site.server h req
      = Returns (res, req', h')
    ∧ Response.StatusCode res = 404%Z
    ∧ Response.Header res = Request.Header req
    ∧ contents h (Request.Header req) = {[ "Accept" := "text/html" ]}
    ∧ contents h' (Request.Header req)
      = <[ "Date" := "t2000" ]> {[ "Accept" := "text/html" ]}
    ∧ ∃ preq pbr ph pres ph',
        Pkg.ReadRequest [] (NewReader sent io_EOF)
          = ((Some preq, false, None), pbr, ph)
        ∧ PkgServer.HandleGoodRequest Site.world Site.server ph preq
          = Returns (pres, ph')
        ∧ Response.Header pres ≠ Request.Header preq
        ∧ contents ph' (Request.Header preq)
          = contents ph (Request.Header preq).
Proof.
  eexists _, _, _, _, _, _.
  split; [reflexivity |].
  split; [reflexivity |].
  split; [reflexivity |].
  split; [reflexivity |].
  split; [reflexivity |].
  split; [reflexivity |].
  eexists _, _, _, _, _.
  split; [reflexivity |].
  split; [reflexivity |].
  split; [discriminate | reflexivity].
Qed.

(** C10: building the 200 response must succeed for every file path.
    [HandleOK] indexes [strings.SplitN(path, ".", 2)] at 1: for a path
    without a dot the slice has one element and the call panics, in both
    servers, so that [GET /README] for the existing file [/srv/www/README]
    ends the handler in a panic instead of a response.  For a path with
    more than one dot the text after the first dot is looked up, which is
    not the extension of the file. *)
Theorem HandleOK_panics_on_path_without_dot :
  let why := "index out of range [1] with length 1" in
  let req := Request.mk "GET" "/README" "HTTP/1.1" (Some 0%nat) "test" false in
  Site.stat "/srv/www/README" = Site.regular 6
  ∧ PkgServer.HandleOK Site.world [∅] Response.zero req "/srv/www/README"
    = Panics why
  ∧ RevServer.HandleOK Site.world [∅] Response.zero req "/srv/www/README"
    = Panics why
  ∧ PkgServer.HandleConnection 1 Site.world Site.server []
      (NewReader (Site.get "/README" []) io_EOF) = Some (Panics why)
  ∧ RevServer.HandleConnection 1 Site.world Site.server []
      (NewReader (Site.get "/README" []) io_EOF) = Some (Panics why)
  ∧ after_first_dot "/srv/www.example/index.html"
    = Returns "example/index.html".
Proof. cbv zeta. repeat split; reflexivity. Qed.
